(** * Smart Quiz & Progress Tracker: a shallow embedding of [sample.py]

    The Streamlit script is embedded as pure functions over an explicit
    world: the per-browser session dictionary [st.session_state], the two
    JSON documents on disk and the messages written to the page.  One call
    of [take_quiz] below is one run of the page script; the widgets'
    values of that run (select box, slider, check box, radio, buttons) are
    its inputs.

    Numbers: Python [int] is [Z], and Python [float] is an IEEE 754
    binary64 number, in the Standard Library's specification of the format
    ([spec_float]).  The only float of the program is the percentage of
    [calculate_grade]; [exact_grade] is the same computation in exact
    rational arithmetic ([Q]), the reference the doubles are compared
    with, and [calculate_grade_binary64] is the computation on the
    machine's floats. *)

From Stdlib Require Import ZArith QArith Qabs List String Ascii Bool Lia.
From Stdlib Require Import Permutation Sorted PrimFloat Uint63 FloatOps SpecFloat.
Import ListNotations.

Open Scope Z_scope.

(* ------------------------------------------------------------------ *)
(** ** Python lists and exceptions *)

Inductive Exn : Type :=
| IndexError
| KeyError
| StopIteration
| ZeroDivisionError
| OverflowError
| StreamlitAPIException.

Inductive Outcome (A : Type) : Type :=
| Ok (a : A)
| Raise (e : Exn).

Arguments Ok {A} a.
Arguments Raise {A} e.

Definition bind {A B : Type} (m : Outcome A) (k : A -> Outcome B) : Outcome B :=
  match m with
  | Ok a => k a
  | Raise e => Raise e
  end.

Notation "x <- m ;; k" := (bind m (fun x => k))
  (at level 61, m at next level, right associativity).

(** [len(l)]. *)
Definition len {A : Type} (l : list A) : Z := Z.of_nat (List.length l).

(** [not l], the truth value of a list. *)
Definition is_empty {A : Type} (l : list A) : bool :=
  match l with
  | [] => true
  | _ :: _ => false
  end.

(** [l[:n]]: a negative bound counts from the end, a bound past the end
    stops at the end. *)
Definition py_slice_to {A : Type} (l : list A) (n : Z) : list A :=
  if n <? 0 then firstn (Z.to_nat (len l + n)) l else firstn (Z.to_nat n) l.

(** [l[i]]: a negative index counts from the end, an index out of range
    raises [IndexError]. *)
Definition py_index {A : Type} (l : list A) (i : Z) : Outcome A :=
  let pos := if i <? 0 then len l + i else i in
  if (0 <=? pos) && (pos <? len l) then
    match nth_error l (Z.to_nat pos) with
    | Some x => Ok x
    | None => Raise IndexError
    end
  else Raise IndexError.

(** [a == b] on lists of integers. *)
Fixpoint ids_eqb (a b : list Z) : bool :=
  match a, b with
  | [], [] => true
  | x :: a', y :: b' => (x =? y) && ids_eqb a' b'
  | _, _ => false
  end.

(** [x in l] on lists of strings. *)
Definition str_in (x : string) (l : list string) : bool :=
  existsb (String.eqb x) l.

(* ------------------------------------------------------------------ *)
(** ** Python floats *)

(** A Python [float]: a binary64 number, 53 bits of precision, infinities
    at exponent 1024. *)
Definition double : Type := spec_float.

(** [float(z)] for an integer that a double represents exactly (the
    constants of the script). *)
Definition double_of_int (z : Z) : double := binary_normalize 53 1024 z 0 false.

(** An integer as the operand of a division: the integer itself as
    mantissa, exponent 0. *)
Definition int_operand (z : Z) : double :=
  match z with
  | Z0 => S754_zero false
  | Zpos p => S754_finite false p 0
  | Zneg p => S754_finite true p 0
  end.

(** [a / b] on integers: the double nearest to the quotient, ties to even,
    whatever the size of [a] and [b]; [ZeroDivisionError] when [b] is 0 and
    [OverflowError] when the rounded quotient is beyond the largest
    double. *)
Definition true_divide (a b : Z) : Outcome double :=
  if b =? 0 then Raise ZeroDivisionError
  else
    match SFdiv 53 1024 (int_operand a) (int_operand b) with
    | S754_infinity _ => Raise OverflowError
    | q => Ok q
    end.

(** [x * y] and [x <= y] on floats. *)
Definition double_mul (x y : double) : double := SFmul 53 1024 x y.
Definition double_leb (x y : double) : bool := SFleb x y.

(** The rational number a finite double stands for. *)
Definition double_to_Q (d : double) : option Q :=
  match d with
  | S754_zero _ => Some 0%Q
  | S754_finite s m e =>
      let v := if 0 <=? e then inject_Z (Z.pos m * 2 ^ e)
               else (Z.pos m # Pos.pow 2 (Z.to_pos (- e)))%Q in
      Some (if s then Qopp v else v)
  | S754_infinity _ | S754_nan => None
  end.

(** A Python number: an [int] or a [float]. *)
Inductive Number : Type :=
| PyInt (z : Z)
| PyFloat (d : double).

(** [x >= b] for a number [x] and an integer constant [b] of the script,
    which a double represents exactly. *)
Definition number_geb (x : Number) (b : Z) : bool :=
  match x with
  | PyInt z => b <=? z
  | PyFloat d => double_leb (double_of_int b) d
  end.

(** The rational number a finite number stands for. *)
Definition number_to_Q (x : Number) : option Q :=
  match x with
  | PyInt z => Some (inject_Z z)
  | PyFloat d => double_to_Q d
  end.

(* ------------------------------------------------------------------ *)
(** ** Data model *)

(** A question dict of [questions.json]. *)
Record Question : Type := mkQuestion {
  id : Z;
  category : string;
  question : string;
  choices : list string;
  answer : string
}.

(** An element of [st.session_state["answers"]]: the tuple
    [(q_id, selected_choice, correct)]. *)
Definition Answer : Type := (Z * string * bool)%type.

Definition ans_id (a : Answer) : Z := fst (fst a).
Definition ans_choice (a : Answer) : string := snd (fst a).
Definition ans_correct (a : Answer) : bool := snd a.

(** [st.session_state], restricted to the keys the script uses.  A key that
    is not in the dictionary is [None]. *)
Record SessionState : Type := mkSession {
  quiz_running : option bool;
  last_pool : option (list Z);
  current_q_index : option Z;
  score : option Z;
  answers : option (list Answer);
  start_time : option string
}.

(** The session dictionary of a fresh browser session. *)
Definition empty_session : SessionState :=
  mkSession None None None None None None.

(** [d.get(key, default)]. *)
Definition get {A : Type} (o : option A) (default : A) : A :=
  match o with
  | Some v => v
  | None => default
  end.

(** A result dict of [results.json]. *)
Record ResultRecord : Type := mkResult {
  r_timestamp : string;
  r_score : Z;
  r_total : Z;
  r_pct : Number;
  r_grade : string;
  r_category : string;
  r_answers : list Answer
}.

(* ------------------------------------------------------------------ *)
(** ** Helper functions of the script *)

(** [max(iterable)] on a non-empty iterable whose first element is [x]. *)
Definition py_max (x : Z) (xs : list Z) : Z := fold_left Z.max xs x.

(** [generate_id], lines 74-77. *)
Definition generate_id (qs : list Question) : Z :=
  match qs with
  | [] => 1
  | q :: rest => py_max (id q) (map id rest) + 1
  end.

(** [quiz_session_reset], lines 83-86. *)
Definition quiz_session_reset (s : SessionState) : SessionState :=
  {| quiz_running := quiz_running s;
     last_pool := last_pool s;
     current_q_index := Some 0;
     score := Some 0;
     answers := Some [];
     start_time := start_time s |}.

(** The grade of a percentage, lines 90-97. *)
Definition grade_of (pct : Number) : string :=
  if number_geb pct 85 then "A"%string
  else if number_geb pct 70 then "B"%string
  else if number_geb pct 50 then "C"%string
  else "D"%string.

(** [calculate_grade], lines 88-98.  The quotient of line 89 is a double,
    and so is its product by 100, for which the [int] 100 is converted;
    on a total of 0 or less the percentage is the [int] 0. *)
Definition calculate_grade (score total : Z) : Outcome (Number * string) :=
  pct <- (if total >? 0
          then q <- true_divide score total ;;
               Ok (PyFloat (double_mul q (double_of_int 100)))
          else Ok (PyInt 0)) ;;
  Ok (pct, grade_of pct).

(** The percentage and the grade in exact rational arithmetic: what
    [calculate_grade] rounds.  It is no part of the script. *)
Definition exact_grade (score total : Z) : Q * string :=
  let pct : Q :=
    if total >? 0 then ((inject_Z score / inject_Z total) * 100)%Q else 0%Q in
  let grade : string :=
    if Qle_bool 85 pct then "A"%string
    else if Qle_bool 70 pct then "B"%string
    else if Qle_bool 50 pct then "C"%string
    else "D"%string in
  (pct, grade).

(** The grade from integer products, with no division.  It is no part of
    the script. *)
Definition grade_by_products (score total : Z) : string :=
  if 85 * total <=? 100 * score then "A"%string
  else if 70 * total <=? 100 * score then "B"%string
  else if 50 * total <=? 100 * score then "C"%string
  else "D"%string.

(** [calculate_grade] on the machine's floats, as CPython evaluates it for
    integers that a double represents exactly. *)
Definition float_of_int (z : Z) : float := PrimFloat.of_uint63 (Uint63.of_Z z).

Definition calculate_grade_binary64 (score total : Z) : float * string :=
  let pct : float :=
    if total >? 0
    then PrimFloat.mul (PrimFloat.div (float_of_int score) (float_of_int total))
                       (float_of_int 100)
    else float_of_int 0 in
  let grade : string :=
    if PrimFloat.leb (float_of_int 85) pct then "A"%string
    else if PrimFloat.leb (float_of_int 70) pct then "B"%string
    else if PrimFloat.leb (float_of_int 50) pct then "C"%string
    else "D"%string in
  (pct, grade).

(** All pairs [(score, total)] with [0 <= score <= total <= n]. *)
Definition score_pairs (n : nat) : list (Z * Z) :=
  flat_map (fun t => map (fun s => (Z.of_nat s, Z.of_nat t)) (seq 0 (S t)))
           (seq 0 (S n)).

Definition grades_agree (p : Z * Z) : bool :=
  String.eqb (snd (exact_grade (fst p) (snd p)))
             (snd (calculate_grade_binary64 (fst p) (snd p))).

(** The rational number a finite double stands for. *)
Definition float_to_Q (f : float) : option Q :=
  match Prim2SF f with
  | S754_zero _ => Some 0%Q
  | S754_finite s m e =>
      let v := if 0 <=? e then inject_Z (Z.pos m * 2 ^ e)
               else (Z.pos m # Pos.pow 2 (Z.to_pos (- e)))%Q in
      Some (if s then Qopp v else v)
  | S754_infinity _ | S754_nan => None
  end.

(** The double precision percentage is within [2^-46], less than one part
    in [10^13], of the exact one. *)
Definition pct_close (p : Z * Z) : bool :=
  match float_to_Q (fst (calculate_grade_binary64 (fst p) (snd p))) with
  | Some x =>
      Qle_bool (Qabs (x - fst (exact_grade (fst p) (snd p)))) (1 # 2 ^ 46)
  | None => false
  end.

(** On the pair [p], [calculate_grade] returns, with the grade of the
    exact percentage and a percentage within [2^-46] of the exact one. *)
Definition rounds_well (p : Z * Z) : bool :=
  match calculate_grade (fst p) (snd p) with
  | Ok (pct, grade) =>
      String.eqb grade (snd (exact_grade (fst p) (snd p))) &&
      match number_to_Q pct with
      | Some x =>
          Qle_bool (Qabs (x - fst (exact_grade (fst p) (snd p)))) (1 # 2 ^ 46)
      | None => false
      end
  | Raise _ => false
  end.

(** On the pair [p], [calculate_grade] returns the very double and grade
    that the machine's floating point unit gives. *)
Definition double_same (x y : double) : bool :=
  match x, y with
  | S754_zero a, S754_zero b => Bool.eqb a b
  | S754_finite a m e, S754_finite b m' e' =>
      Bool.eqb a b && Pos.eqb m m' && Z.eqb e e'
  | _, _ => false
  end.

Definition same_as_hardware (p : Z * Z) : bool :=
  match calculate_grade (fst p) (snd p) with
  | Ok (PyFloat d, grade) =>
      double_same d (Prim2SF (fst (calculate_grade_binary64 (fst p) (snd p)))) &&
      String.eqb grade (snd (calculate_grade_binary64 (fst p) (snd p)))
  | Ok (PyInt _, _) => snd p <=? 0
  | Raise _ => false
  end.

(* ------------------------------------------------------------------ *)
(** ** The world of the script *)

(** What the script reports on the page with [st.success], [st.info],
    [st.warning] and [st.error]. *)
Inductive Msg : Type :=
| NoQuestionsAvailable                         (* st.warning, line 116 *)
| NoQuestionsInCategory                        (* st.warning, line 132 *)
| Correct                                      (* st.success, line 170 *)
| Incorrect (canonical : string)               (* st.error, line 172 *)
| AlreadyAnswered                              (* st.info, line 174 *)
| Scored (sc total : Z) (pct : Number) (grade : string)  (* st.success, line 186 *)
| ResultSaved                                  (* st.success, line 72 *)
| BankSaved                                    (* st.success, line 61 *)
| NoQuestionsToEdit                            (* st.warning, line 298 *)
| AnswerMustMatch                              (* st.error, line 313 *)
| QuestionUpdated                              (* st.success, line 320 *)
| SessionReset.                                (* st.success, line 356 *)

Record World : Type := mkWorld {
  session : SessionState;          (* st.session_state *)
  questions_file : list Question;  (* questions.json *)
  results_file : list ResultRecord;(* results.json *)
  page : list Msg                  (* messages shown, oldest first *)
}.

Definition say (m : Msg) (wd : World) : World :=
  {| session := session wd;
     questions_file := questions_file wd;
     results_file := results_file wd;
     page := page wd ++ [m] |}.

Definition with_session (s : SessionState) (wd : World) : World :=
  {| session := s;
     questions_file := questions_file wd;
     results_file := results_file wd;
     page := page wd |}.

(** [save_result], lines 67-72. *)
Definition save_result (r : ResultRecord) (wd : World) : World :=
  say ResultSaved
    {| session := session wd;
       questions_file := questions_file wd;
       results_file := results_file wd ++ [r];
       page := page wd |}.

(** [save_questions], lines 57-61. *)
Definition save_questions (qs : list Question) (wd : World) : World :=
  say BankSaved
    {| session := session wd;
       questions_file := qs;
       results_file := results_file wd;
       page := page wd |}.

(* ------------------------------------------------------------------ *)
(** ** The quiz page, [take_quiz], lines 112-216 *)

(** The values of the page's widgets in one run of the script.  The radio
    button is drawn over the choices of the question on display and
    returns one of them. *)
Record QuizWidgets : Type := mkWidgets {
  w_category : string;     (* st.selectbox("Choose category") *)
  w_num_questions : Z;     (* st.slider("Number of questions") *)
  w_shuffle : bool;        (* st.checkbox("Shuffle questions") *)
  w_choice : string;       (* st.radio("Choose an answer") *)
  w_previous : bool;       (* st.button("Previous") *)
  w_submit : bool;         (* st.button("Submit Answer") *)
  w_next : bool;           (* st.button("Next") *)
  w_finish : bool          (* st.button("Finish Quiz") *)
}.

(** What the run draws from outside the program: the outcome of
    [random.shuffle] and the reading of [datetime.now().isoformat()]. *)
Record Env : Type := mkEnv {
  shuffled : list Question -> list Question;
  now : string
}.

(** Lines 125-129: the pool of the chosen category. *)
Definition filter_pool (cat : string) (qs : list Question) : list Question :=
  if String.eqb cat "All" then qs
  else filter (fun q => String.eqb (category q) cat) qs.

(** Lines 135-138: shuffle on demand, then keep the first [num_questions]. *)
Definition select_questions (env : Env) (w : QuizWidgets) (pool : list Question)
  : list Question :=
  let pool := if w_shuffle w then shuffled env pool else pool in
  py_slice_to pool (w_num_questions w).

(** Lines 141-145: a session is started when the dictionary has no
    ["quiz_running"] key or the ids of the selection differ from
    ["last_pool"]. *)
Definition same_pool (s : SessionState) (ids : list Z) : bool :=
  match last_pool s with
  | Some l => ids_eqb l ids
  | None => false
  end.

Definition in_progress (s : SessionState) (ids : list Z) : bool :=
  match quiz_running s with
  | Some _ => same_pool s ids
  | None => false
  end.

Definition init_session (env : Env) (selected : list Question) (s : SessionState)
  : SessionState :=
  let ids := map id selected in
  if in_progress s ids then s
  else
    let s1 := {| quiz_running := Some true;
                 last_pool := Some ids;
                 current_q_index := current_q_index s;
                 score := score s;
                 answers := answers s;
                 start_time := start_time s |} in
    let s2 := quiz_session_reset s1 in
    {| quiz_running := quiz_running s2;
       last_pool := last_pool s2;
       current_q_index := current_q_index s2;
       score := score s2;
       answers := answers s2;
       start_time := Some (now env) |}.

(** [st.session_state["current_q_index"] += d]; the key must exist. *)
Definition bump_index (d : Z) (s : SessionState) : Outcome SessionState :=
  match current_q_index s with
  | Some i =>
      Ok {| quiz_running := quiz_running s;
            last_pool := last_pool s;
            current_q_index := Some (i + d);
            score := score s;
            answers := answers s;
            start_time := start_time s |}
  | None => Raise KeyError
  end.

Inductive Direction : Type := Previous | Next.

(** The navigation buttons, lines 157-158 and 176-177. [q_index] is the
    index read at line 147. *)
Definition advance (dir : Direction) (selected : list Question) (q_index : Z)
                   (wd : World) : Outcome World :=
  match dir with
  | Previous =>
      if q_index >? 0
      then s <- bump_index (-1) (session wd) ;; Ok (with_session s wd)
      else Ok wd
  | Next =>
      if q_index <? len selected - 1
      then s <- bump_index 1 (session wd) ;; Ok (with_session s wd)
      else Ok wd
  end.

(** The first submission recorded for a question id, line 165. *)
Definition already_answered (qid : Z) (l : list Answer) : option Answer :=
  find (fun a => ans_id a =? qid) l.

(** The Submit Answer button, lines 161-174, for the question [q] on
    display and the radio's value [choice]. *)
Definition submit_answer (q : Question) (choice : string) (wd : World) : World :=
  let s := session wd in
  let recorded := get (answers s) [] in
  let correct := String.eqb choice (answer q) in
  match already_answered (id q) recorded with
  | None =>
      let appended := recorded ++ [(id q, choice, correct)] in
      if correct then
        say Correct
          (with_session
             {| quiz_running := quiz_running s;
                last_pool := last_pool s;
                current_q_index := current_q_index s;
                score := Some (get (score s) 0 + 1);
                answers := Some appended;
                start_time := start_time s |} wd)
      else
        say (Incorrect (answer q))
          (with_session
             {| quiz_running := quiz_running s;
                last_pool := last_pool s;
                current_q_index := current_q_index s;
                score := score s;
                answers := Some appended;
                start_time := start_time s |} wd)
  | Some _ =>
      say AlreadyAnswered
        (with_session
           {| quiz_running := quiz_running s;
              last_pool := last_pool s;
              current_q_index := current_q_index s;
              score := score s;
              answers := Some recorded;
              start_time := start_time s |} wd)
  end.

(** The Finish Quiz button, lines 183-198 (the chart that follows only
    draws). *)
Definition finish (env : Env) (w : QuizWidgets) (selected : list Question)
                  (wd : World) : Outcome World :=
  let total := len selected in
  let sc := get (score (session wd)) 0 in
  graded <- calculate_grade sc total ;;
  let pct := fst graded in
  let grade := snd graded in
  let wd1 := say (Scored sc total pct grade) wd in
  let result := {| r_timestamp := now env;
                   r_score := sc;
                   r_total := total;
                   r_pct := pct;
                   r_grade := grade;
                   r_category := w_category w;
                   r_answers := get (answers (session wd)) [] |} in
  let wd2 := save_result result wd1 in
  let s := session wd2 in
  Ok (with_session
        {| quiz_running := Some false;
           last_pool := last_pool s;
           current_q_index := current_q_index s;
           score := score s;
           answers := answers s;
           start_time := start_time s |} wd2).

(** Lines 147-198: the part of the run that follows the selection. *)
Definition run_session (env : Env) (w : QuizWidgets) (selected : list Question)
                       (wd : World) : Outcome World :=
  let wd := with_session (init_session env selected (session wd)) wd in
  let q_index := get (current_q_index (session wd)) 0 in
  q <- py_index selected q_index ;;
  wd <- (if w_previous w then advance Previous selected q_index wd else Ok wd) ;;
  wd <- Ok (if w_submit w then submit_answer q (w_choice w) wd else wd) ;;
  wd <- (if w_next w then advance Next selected q_index wd else Ok wd) ;;
  if q_index =? len selected - 1 then
    if w_finish w then finish env w selected wd else Ok wd
  else Ok wd.

(** [st.slider(label, min_value, max_value, value)] of Streamlit, line 122:
    the library raises [StreamlitAPIException] unless [min_value] is below
    [max_value]; otherwise it returns the value the user picked. *)
Definition st_slider (min_value max_value picked : Z) : Outcome Z :=
  if min_value <? max_value then Ok picked else Raise StreamlitAPIException.

(** Lines 125-198: the run from the pool on. *)
Definition quiz_from_pool (env : Env) (w : QuizWidgets) (wd : World)
  : Outcome World :=
  let pool := filter_pool (w_category w) (questions_file wd) in
  if is_empty pool then Ok (say NoQuestionsInCategory wd)
  else run_session env w (select_questions env w pool) wd.

(** One run of the page.  The slider runs from 1 to [min(20, len(qs))]:
    on a bank of one question the two bounds are equal and the slider
    raises. *)
Definition take_quiz (env : Env) (w : QuizWidgets) (wd : World) : Outcome World :=
  let qs := questions_file wd in
  if is_empty qs then Ok (say NoQuestionsAvailable wd)
  else
    num_questions <- st_slider 1 (Z.min 20 (len qs)) (w_num_questions w) ;;
    quiz_from_pool env w wd.

(* ------------------------------------------------------------------ *)
(** ** Text of the editor's forms

    A character is a code point below 256. *)

Definition code (c : ascii) : nat := nat_of_ascii c.

(** The line boundaries of [str.splitlines] below 256: LF, VT, FF, CR, FS,
    GS, RS and NEL. *)
Definition is_linebreak (c : ascii) : bool :=
  existsb (Nat.eqb (code c)) [10; 11; 12; 13; 28; 29; 30; 133]%nat.

(** [c.isspace()] below 256: TAB to CR, FS to US, space, NEL and NBSP. *)
Definition is_space (c : ascii) : bool :=
  existsb (Nat.eqb (code c)) [9; 10; 11; 12; 13; 28; 29; 30; 31; 32; 133; 160]%nat.

Definition str_empty (s : string) : bool :=
  match s with
  | EmptyString => true
  | String _ _ => false
  end.

Fixpoint lstrip (s : string) : string :=
  match s with
  | EmptyString => EmptyString
  | String c rest => if is_space c then lstrip rest else s
  end.

Fixpoint rstrip (s : string) : string :=
  match s with
  | EmptyString => EmptyString
  | String c rest =>
      let rest' := rstrip rest in
      if is_space c && str_empty rest' then EmptyString else String c rest'
  end.

(** [s.strip()]. *)
Definition strip (s : string) : string := rstrip (lstrip s).

(** [s.splitlines()], with [line] the text read since the last boundary:
    CR LF is one boundary, and text after the last boundary is a line only
    when it is not empty. *)
Fixpoint splitlines_from (line s : string) : list string :=
  match s with
  | EmptyString => if str_empty line then [] else [line]
  | String c rest =>
      if is_linebreak c then
        match rest with
        | String c' rest' =>
            if (code c =? 13)%nat && (code c' =? 10)%nat
            then line :: splitlines_from EmptyString rest'
            else line :: splitlines_from EmptyString rest
        | EmptyString => line :: splitlines_from EmptyString rest
        end
      else splitlines_from (line ++ String c EmptyString) rest
  end.

Definition splitlines (s : string) : list string := splitlines_from EmptyString s.

(** [[c.strip() for c in choices_raw.splitlines() if c.strip()]],
    lines 284 and 311. *)
Definition parse_choices (choices_raw : string) : list string :=
  map strip (filter (fun c => negb (str_empty (strip c))) (splitlines choices_raw)).

(* ------------------------------------------------------------------ *)
(** ** The editor page, mode "Edit Existing", lines 296-320 *)

Record EditForm : Type := mkEditForm {
  f_qid : Z;               (* the id behind the selected label *)
  f_category : string;     (* st.text_input("Category") *)
  f_question : string;     (* st.text_area("Question") *)
  f_choices_raw : string;  (* st.text_area("Choices (one per line)") *)
  f_answer : string;       (* st.text_input("Correct answer") *)
  f_submitted : bool       (* st.form_submit_button("Save Changes") *)
}.

(** Lines 315-318 on the dict [q], the first of [qs] whose id is [qid]:
    the list holds the same dict, so the list sees the new fields. *)
Fixpoint update_in_place (qid : Z) (f : EditForm) (choices : list string)
                         (qs : list Question) : list Question :=
  match qs with
  | [] => []
  | q :: rest =>
      if id q =? qid then
        {| id := id q;
           category := f_category f;
           question := f_question f;
           choices := choices;
           answer := f_answer f |} :: rest
      else q :: update_in_place qid f choices rest
  end.

(** The run returns the list [qs] it loaded, as it stands when the run
    ends, next to the world. *)
Definition edit_existing (f : EditForm) (wd : World)
  : Outcome (list Question * World) :=
  let qs := questions_file wd in
  if is_empty qs then Ok (qs, say NoQuestionsToEdit wd)
  else
    match find (fun q => id q =? f_qid f) qs with
    | None => Raise StopIteration
    | Some q =>
        if f_submitted f then
          let choices := parse_choices (f_choices_raw f) in
          if negb (str_in (f_answer f) choices)
          then Ok (qs, say AnswerMustMatch wd)
          else
            let qs' := update_in_place (id q) f choices qs in
            Ok (qs', say QuestionUpdated (save_questions qs' wd))
        else Ok (qs, wd)
    end.

(* ------------------------------------------------------------------ *)
(** ** [main], lines 345-384 *)

(** The page chosen in the sidebar.  The pages that only read and draw
    (Flash Screen, View Results, Display Questions, About) are one case. *)
Inductive Page : Type :=
| TakeQuiz (w : QuizWidgets)
| EditQuestions (f : EditForm)
| ReadOnlyPage.

(** One run of the script: the page is drawn anew, the sidebar's
    "Reset Quiz Session" button is served, then the chosen page runs. *)
Definition main (env : Env) (reset : bool) (p : Page) (wd : World) : Outcome World :=
  let wd := {| session := session wd;
               questions_file := questions_file wd;
               results_file := results_file wd;
               page := [] |} in
  let wd := if reset
            then say SessionReset (with_session (quiz_session_reset (session wd)) wd)
            else wd in
  match p with
  | TakeQuiz w => take_quiz env w wd
  | EditQuestions f => r <- edit_existing f wd ;; Ok (snd r)
  | ReadOnlyPage => Ok wd
  end.

(** The widgets keep to their ranges: the slider runs from 1 to
    [min(20, len(qs))], and [random.shuffle] permutes its argument. *)
Definition valid_input (env : Env) (p : Page) (wd : World) : Prop :=
  match p with
  | TakeQuiz w =>
      1 <= w_num_questions w <= Z.min 20 (len (questions_file wd)) /\
      (forall l, Permutation l (shuffled env l))
  | _ => True
  end.

(** The worlds the application can be in: it starts with an empty session
    dictionary; between two runs the bank on disk may be rewritten (the
    editor's other modes, or by hand). *)
Inductive reachable : World -> Prop :=
| reach_start (qs : list Question) (rs : list ResultRecord) :
    reachable (mkWorld empty_session qs rs [])
| reach_run (env : Env) (reset : bool) (p : Page) (wd wd' : World) :
    reachable wd -> valid_input env p wd -> main env reset p wd = Ok wd' ->
    reachable wd'
| reach_bank (qs : list Question) (wd : World) :
    reachable wd ->
    reachable (mkWorld (session wd) qs (results_file wd) (page wd)).

(** Number of recorded submissions whose [correct] flag is set. *)
Definition count_correct (l : list Answer) : Z :=
  len (filter ans_correct l).

(* ------------------------------------------------------------------ *)
(** ** The default bank and the scenarios of the specification *)

Definition default_questions : list Question :=
  [ mkQuestion 1 "General Knowledge" "What is the capital of France?"
      ["Paris"; "London"; "Berlin"; "Madrid"]%string "Paris";
    mkQuestion 2 "Math" "What is 7 * 8?"
      ["54"; "56"; "58"; "49"]%string "56";
    mkQuestion 3 "Science" "Water's chemical formula is?"
      ["H2O"; "CO2"; "O2"; "NaCl"]%string "H2O" ].

Definition plain_env : Env := mkEnv (fun l => l) "2024-01-01T00:00:00".

Definition fresh_world : World := mkWorld empty_session default_questions [] [].

(** Widgets at rest: category "All", three questions, no shuffle. *)
Definition at_rest (choice : string) : QuizWidgets :=
  mkWidgets "All" 3 false choice false false false false.

Definition press_previous (w : QuizWidgets) : QuizWidgets :=
  mkWidgets (w_category w) (w_num_questions w) (w_shuffle w) (w_choice w)
            true false false false.

Definition press_submit (w : QuizWidgets) : QuizWidgets :=
  mkWidgets (w_category w) (w_num_questions w) (w_shuffle w) (w_choice w)
            false true false false.

Definition press_next (w : QuizWidgets) : QuizWidgets :=
  mkWidgets (w_category w) (w_num_questions w) (w_shuffle w) (w_choice w)
            false false true false.

Definition press_finish (w : QuizWidgets) : QuizWidgets :=
  mkWidgets (w_category w) (w_num_questions w) (w_shuffle w) (w_choice w)
            false false false true.

(** Run the page once per element of [ws], stopping at an exception. *)
Fixpoint runs (env : Env) (ws : list QuizWidgets) (wd : World) : Outcome World :=
  match ws with
  | [] => Ok wd
  | w :: rest => wd' <- take_quiz env w wd ;; runs env rest wd'
  end.

(** A pool is a sub-sequence of the bank: the bank with some questions
    struck out. *)
Inductive subseq {A : Type} : list A -> list A -> Prop :=
| subseq_nil : subseq [] []
| subseq_keep (x : A) (l1 l2 : list A) : subseq l1 l2 -> subseq (x :: l1) (x :: l2)
| subseq_drop (x : A) (l1 l2 : list A) : subseq l1 l2 -> subseq l1 (x :: l2).

(** Category "Math", five questions asked for, no shuffle. *)
Definition math_widgets : QuizWidgets :=
  mkWidgets "Math" 5 false "56" false false false false.

Inductive Button : Type := BPrevious | BSubmit | BNext | BFinish.

Definition is_button (b b' : Button) : bool :=
  match b, b' with
  | BPrevious, BPrevious | BSubmit, BSubmit | BNext, BNext | BFinish, BFinish => true
  | _, _ => false
  end.

(** In the run, button [b] reports a click and no other button does. *)
Definition pressed (b : Button) (w : QuizWidgets) : Prop :=
  w_previous w = is_button b BPrevious /\
  w_submit w = is_button b BSubmit /\
  w_next w = is_button b BNext /\
  w_finish w = is_button b BFinish.

Definition button_of (dir : Direction) : Button :=
  match dir with
  | Previous => BPrevious
  | Next => BNext
  end.

(** The session dictionary with the index replaced. *)
Definition at_index (j : Z) (s : SessionState) : SessionState :=
  {| quiz_running := quiz_running s;
     last_pool := last_pool s;
     current_q_index := Some j;
     score := score s;
     answers := answers s;
     start_time := start_time s |}.

(** The index after a move from [i] in a selection of [n] questions. *)
Definition moved (dir : Direction) (n i : Z) : Z :=
  match dir with
  | Previous => if i =? 0 then i else i - 1
  | Next => if i =? n - 1 then i else i + 1
  end.

(** The world after the first run of the quiz page on the default bank. *)
Definition started_world : World :=
  Eval vm_compute in
    match take_quiz plain_env (at_rest "Paris") fresh_world with
    | Ok wd => wd
    | Raise _ => fresh_world
    end.

(** The world after a session on the default bank is started, Next is
    pressed twice and then Finish Quiz. *)
Definition finished_world : World :=
  Eval vm_compute in
    match runs plain_env [at_rest "H2O"; press_next (at_rest "H2O");
                          press_next (at_rest "H2O"); press_finish (at_rest "H2O")]
               fresh_world with
    | Ok wd => wd
    | Raise _ => fresh_world
    end.

(** A line feed. *)
Definition nl : string := String (ascii_of_nat 10) EmptyString.

(** The editor's form for the first question of the default bank with
    "Paris" struck from the choices and kept as the answer. *)
Definition paris_struck : EditForm :=
  mkEditForm 1 "General Knowledge" "What is the capital of France?"
             ("London" ++ nl ++ "Berlin" ++ nl ++ "Madrid") "Paris" true.

(** The invariant of the session dictionary: the score counts the correct
    submissions, no question id has two submissions, and every submission
    is for an id of the selection. *)
Definition session_inv (s : SessionState) : Prop :=
  let recorded := get (answers s) [] in
  get (score s) 0 = count_correct recorded /\
  NoDup (map ans_id recorded) /\
  incl (map ans_id recorded) (get (last_pool s) []).

(** Once a session is started, the index points into the selection. *)
Definition index_inv (s : SessionState) : Prop :=
  quiz_running s <> None ->
  exists i, current_q_index s = Some i /\ 0 <= i < len (get (last_pool s) []).

(** Within a run on the selection [selected]: the session is started on
    it, the invariant holds and the index lies between [lo] and [hi]. *)
Definition run_inv (selected : list Question) (lo hi : Z) (wd : World) : Prop :=
  session_inv (session wd) /\
  last_pool (session wd) = Some (map id selected) /\
  quiz_running (session wd) <> None /\
  exists i, current_q_index (session wd) = Some i /\ lo <= i <= hi.

(** The world after one run of the script on the quiz page with Submit
    Answer pressed and the right choice. *)
Definition answered_world : World :=
  Eval vm_compute in
    match main plain_env false (TakeQuiz (press_submit (at_rest "Paris"))) fresh_world with
    | Ok wd => wd
    | Raise _ => fresh_world
    end.

(* ------------------------------------------------------------------ *)
(** ** The categories of the bank, [get_categories], lines 79-81 *)

Fixpoint insert_sorted (c : string) (l : list string) : list string :=
  match l with
  | [] => [c]
  | x :: rest => if String.leb c x then c :: l else x :: insert_sorted c rest
  end.

(** [sorted(l)] on strings, which Python orders by code points.  The list
    sorted here has no duplicates, so its sorted form does not depend on
    the sorting algorithm. *)
Definition py_sorted (l : list string) : list string :=
  fold_right insert_sorted [] l.

(** The set comprehension of line 80 keeps one copy of each category. *)
Definition get_categories (qs : list Question) : list string :=
  py_sorted (nodup string_dec (map category qs)).

(** Line 119: what the select box of the quiz page offers. *)
Definition category_options (qs : list Question) : list string :=
  "All"%string :: get_categories qs.

(** The order of two strings, as a proposition. *)
Definition str_le (a b : string) : Prop := String.leb a b = true.

(* ------------------------------------------------------------------ *)
(** ** The files, [ensure_files_exist], lines 19-50 *)

(** The two JSON documents; [None] is a file that does not exist. *)
Record Disk : Type := mkDisk {
  questions_json : option (list Question);
  results_json : option (list ResultRecord)
}.

Definition ensure_files_exist (d : Disk) : Disk :=
  let d1 := match questions_json d with
            | None => mkDisk (Some default_questions) (results_json d)
            | Some _ => d
            end in
  match results_json d1 with
  | None => mkDisk (questions_json d1) (Some [])
  | Some _ => d1
  end.

(** The files of a world: [main] has run [ensure_files_exist], both are
    there. *)
Definition disk_of (wd : World) : Disk :=
  mkDisk (Some (questions_file wd)) (Some (results_file wd)).

(** [os.remove(QUESTIONS_FILE)]. *)
Definition remove_questions (d : Disk) : Disk := mkDisk None (results_json d).

(* ------------------------------------------------------------------ *)
(** ** The other modes of the editor page *)

(** The form of mode "Add Question", lines 277-282. *)
Record AddForm : Type := mkAddForm {
  a_category : string;     (* st.text_input("Category") *)
  a_question : string;     (* st.text_area("Question") *)
  a_choices_raw : string;  (* st.text_area("Choices (one per line)") *)
  a_answer : string;       (* st.text_input("Correct answer ...") *)
  a_submitted : bool       (* st.form_submit_button("Add Question") *)
}.

(** How the run of mode "Add Question" ends. *)
Inductive AddStatus : Type :=
| AddIdle                  (* the form was not submitted *)
| AddMissing               (* st.error, line 286 *)
| AddMismatch              (* st.error, line 288 *)
| Added (new_id : Z).      (* st.success, line 294 *)

(** Mode "Add Question", lines 276-294. *)
Definition add_question (f : AddForm) (wd : World) : AddStatus * World :=
  let qs := questions_file wd in
  if a_submitted f then
    let choices := parse_choices (a_choices_raw f) in
    if str_empty (a_question f) || is_empty choices || str_empty (strip (a_answer f))
    then (AddMissing, wd)
    else if negb (str_in (a_answer f) choices) then (AddMismatch, wd)
    else
      let new_id := generate_id qs in
      let new_q := {| id := new_id;
                      category := a_category f;
                      question := a_question f;
                      choices := choices;
                      answer := a_answer f |} in
      (Added new_id, save_questions (qs ++ [new_q]) wd)
  else (AddIdle, wd).

(** How the run of mode "Delete Question" ends. *)
Inductive DeleteStatus : Type :=
| DeleteNothing            (* st.warning, line 324: the bank is empty *)
| DeleteIdle               (* the button was not pressed *)
| Deleted (qid : Z).       (* st.success, line 332 *)

(** Mode "Delete Question", lines 322-332; [qid] is the id behind the
    selected label. *)
Definition delete_question (qid : Z) (pressed : bool) (wd : World)
  : DeleteStatus * World :=
  let qs := questions_file wd in
  if is_empty qs then (DeleteNothing, wd)
  else if pressed
       then (Deleted qid,
             save_questions (filter (fun q => negb (id q =? qid)) qs) wd)
       else (DeleteIdle, wd).

(** Mode "Bulk Reset to Default", lines 334-340: the bank is removed and
    [ensure_files_exist] writes it anew (the warning of line 335 and the
    notice of line 340 are not recorded). *)
Definition bulk_reset (pressed : bool) (wd : World) : World :=
  if pressed then
    let d := ensure_files_exist (remove_questions (disk_of wd)) in
    {| session := session wd;
       questions_file := get (questions_json d) [];
       results_file := get (results_json d) [];
       page := page wd |}
  else wd.

Inductive EditMode : Type :=
| ModeAdd (f : AddForm)
| ModeEdit (f : EditForm)
| ModeDelete (qid : Z) (pressed : bool)
| ModeBulkReset (pressed : bool).

(** [edit_questions], lines 271-340. *)
Definition edit_questions (m : EditMode) (wd : World) : Outcome World :=
  match m with
  | ModeAdd f => Ok (snd (add_question f wd))
  | ModeEdit f => r <- edit_existing f wd ;; Ok (snd r)
  | ModeDelete qid pressed => Ok (snd (delete_question qid pressed wd))
  | ModeBulkReset pressed => Ok (bulk_reset pressed wd)
  end.

(** The form of mode "Edit Existing" as it is first drawn for [q], lines
    305-308, with Save Changes pressed. *)
Definition prefilled (q : Question) : EditForm :=
  mkEditForm (id q) (category q) (question q) (String.concat nl (choices q))
             (answer q) true.

(** The characters of a string. *)
Definition chars (s : string) : list ascii := list_ascii_of_string s.

(** A text without a line boundary. *)
Definition no_break (s : string) : Prop :=
  Forall (fun c => is_linebreak c = false) (chars s).

(** A choice as the editor stores it: not empty, no white space at either
    end, no line boundary inside. *)
Definition clean (s : string) : Prop :=
  s <> EmptyString /\ strip s = s /\ no_break s.

(** A bank as the editor keeps it: no id twice, every answer among the
    choices of its question. *)
Definition bank_ok (qs : list Question) : Prop :=
  NoDup (map id qs) /\ Forall (fun q => In (answer q) (choices q)) qs.

(** The grades from worst to best. *)
Definition grade_rank (g : string) : Z :=
  if String.eqb g "A" then 3
  else if String.eqb g "B" then 2
  else if String.eqb g "C" then 1
  else 0.

(** No button of the quiz page reports a click. *)
Definition no_click (w : QuizWidgets) : Prop :=
  w_previous w = false /\ w_submit w = false /\
  w_next w = false /\ w_finish w = false.

(** Category "Math", one question, Finish Quiz pressed. *)
Definition math_finish : QuizWidgets :=
  mkWidgets "Math" 1 false "56" false false false true.

Definition math_finished_world : World :=
  Eval vm_compute in
    match take_quiz plain_env math_finish fresh_world with
    | Ok wd => wd
    | Raise _ => fresh_world
    end.

Definition math_record : ResultRecord :=
  Eval vm_compute in
    match results_file math_finished_world with
    | r :: _ => r
    | [] => mkResult "" 0 0 (PyInt 0) "" "" []
    end.

(* ------------------------------------------------------------------ *)
(** ** Properties of the helpers *)

Lemma py_max_ge_init (xs : list Z) (x : Z) : x <= py_max x xs.
Proof.
  unfold py_max. revert x.
  induction xs as [|y ys IH]; intro x; simpl; [lia|].
  specialize (IH (Z.max x y)). lia.
Qed.

Lemma py_max_ge_elem (xs : list Z) (x y : Z) : In y xs -> y <= py_max x xs.
Proof.
  unfold py_max. revert x.
  induction xs as [|z zs IH]; intros x Hin; simpl in *; [contradiction|].
  destruct Hin as [->|Hin].
  - pose proof (py_max_ge_init zs (Z.max x y)) as H. unfold py_max in H. lia.
  - apply IH, Hin.
Qed.

Lemma py_max_in (xs : list Z) (x : Z) : In (py_max x xs) (x :: xs).
Proof.
  unfold py_max. revert x.
  induction xs as [|y ys IH]; intro x; simpl; [now left|].
  destruct (IH (Z.max x y)) as [H|H].
  - rewrite <- H. destruct (Z.max_spec x y) as [[_ E]|[_ E]]; rewrite E; auto.
  - right; right; exact H.
Qed.

Example grades_agree_upto_20 : forallb grades_agree (score_pairs 20) = true.
Proof. vm_compute. reflexivity. Qed.

Example pct_close_upto_20 : forallb pct_close (score_pairs 20) = true.
Proof. vm_compute. reflexivity. Qed.

(* ------------------------------------------------------------------ *)
(** ** [generate_id] *)

(** C7. [generate_id] returns 1 on the empty bank; on a non-empty bank it
    returns one more than the largest id of the bank, which is strictly
    greater than every id of the bank and is the id of none of its
    questions. *)
Theorem generate_id_fresh (qs : list Question) :
  match qs with
  | [] => generate_id qs = 1
  | _ :: _ =>
      (exists q, In q qs /\ Forall (fun q' => id q' <= id q) qs /\
                 generate_id qs = id q + 1) /\
      Forall (fun q' => id q' < generate_id qs) qs /\
      ~ In (generate_id qs) (map id qs)
  end.
Proof.
  destruct qs as [|q0 rest]; [reflexivity|].
  assert (Hub : forall q', In q' (q0 :: rest) ->
                           id q' <= py_max (id q0) (map id rest)).
  { intros q' [<-|Hin].
    - apply py_max_ge_init.
    - apply py_max_ge_elem, in_map, Hin. }
  repeat split.
  - pose proof (py_max_in (map id rest) (id q0)) as Hin.
    change (id q0 :: map id rest) with (map id (q0 :: rest)) in Hin.
    apply in_map_iff in Hin. destruct Hin as [q [Hq Hqin]].
    exists q. repeat split; [exact Hqin| |simpl; now rewrite Hq].
    apply Forall_forall. intros q' Hq'. rewrite Hq. now apply Hub.
  - apply Forall_forall. intros q' Hq'. specialize (Hub q' Hq'). simpl. lia.
  - intro Hin. apply in_map_iff in Hin. destruct Hin as [q [Hq Hqin]].
    specialize (Hub q Hqin). simpl in Hq. lia.
Qed.

Example generate_id_default : generate_id default_questions = 4.
Proof. reflexivity. Qed.

(* ------------------------------------------------------------------ *)
(** ** [calculate_grade] *)


Lemma pct_value (score total : Z) :
  0 < total ->
  (inject_Z score / inject_Z total * 100 == inject_Z (100 * score) / inject_Z total)%Q.
Proof.
  intro Ht.
  assert (Hnz : ~ (inject_Z total == 0)%Q).
  { unfold Qeq, inject_Z. simpl. lia. }
  rewrite inject_Z_mult. field. exact Hnz.
Qed.

(** The percentage compared with a breakpoint, on the integers. *)
Lemma pct_ge_iff (score total b : Z) :
  0 < total ->
  ((inject_Z b <= inject_Z score / inject_Z total * 100)%Q <->
   b * total <= 100 * score).
Proof.
  intro Ht.
  rewrite (pct_value score total Ht).
  unfold Qle, Qdiv, Qmult, Qinv, inject_Z. simpl.
  destruct total as [|p|p]; try lia. simpl.
  rewrite !Z.mul_1_r. reflexivity.
Qed.



Lemma score_pairs_complete (n : nat) (score total : Z) :
  0 <= score <= total -> total <= Z.of_nat n -> In (score, total) (score_pairs n).
Proof.
  intros Hs Ht. unfold score_pairs.
  apply in_flat_map. exists (Z.to_nat total). split.
  - apply in_seq. lia.
  - apply in_map_iff. exists (Z.to_nat score). split.
    + f_equal; lia.
    + apply in_seq. lia.
Qed.

(** On every outcome of a quiz (the slider allows at most 20 questions)
    the double precision computation gives the grade of the exact one, and
    a percentage within [2^-46] of the exact one. *)
Lemma binary64_grade_agrees (score total : Z) :
  0 <= score <= total -> total <= 20 ->
  snd (calculate_grade_binary64 score total) = snd (exact_grade score total) /\
  exists x : Q,
    float_to_Q (fst (calculate_grade_binary64 score total)) = Some x /\
    (Qabs (x - fst (exact_grade score total)) <= 1 # 2 ^ 46)%Q.
Proof.
  intros Hs Ht.
  pose proof (score_pairs_complete 20 score total Hs Ht) as Hin.
  split.
  - pose proof grades_agree_upto_20 as Hall.
    rewrite forallb_forall in Hall. specialize (Hall _ Hin).
    unfold grades_agree in Hall. cbn [fst snd] in Hall.
    apply String.eqb_eq in Hall. symmetry. exact Hall.
  - pose proof pct_close_upto_20 as Hall.
    rewrite forallb_forall in Hall. specialize (Hall _ Hin).
    unfold pct_close in Hall. cbn [fst snd] in Hall.
    destruct (float_to_Q (fst (calculate_grade_binary64 score total))) as [x|];
      [|discriminate].
    exists x. split; [reflexivity|]. apply Qle_bool_iff. exact Hall.
Qed.

(** 29 of 100: the double is not the exact percentage. *)
Example binary64_pct_inexact :
  float_to_Q (fst (calculate_grade_binary64 29 100)) =
    Some (8162774324609023 # 2 ^ 48)%Q /\
  Qred (fst (exact_grade 29 100)) = 29%Q.
Proof. split; vm_compute; reflexivity. Qed.

(** [calculate_grade] on every pair [0 <= score <= total <= 100]. *)
Example rounds_well_upto_100 : forallb rounds_well (score_pairs 100) = true.
Proof. vm_compute. reflexivity. Qed.

(** For totals up to 100 [calculate_grade] returns, with the grade of the
    exact percentage and a percentage within [2^-46] of the exact one. *)
Lemma calculate_grade_in_range (score total : Z) :
  0 <= score <= total -> total <= 100 ->
  exists (pct : Number) (x : Q),
    calculate_grade score total = Ok (pct, snd (exact_grade score total)) /\
    number_to_Q pct = Some x /\
    (Qabs (x - fst (exact_grade score total)) <= 1 # 2 ^ 46)%Q.
Proof.
  intros Hs Ht.
  pose proof (score_pairs_complete 100 score total Hs Ht) as Hin.
  pose proof rounds_well_upto_100 as Hall.
  rewrite forallb_forall in Hall. specialize (Hall _ Hin).
  unfold rounds_well in Hall. cbn [fst snd] in Hall.
  destruct (calculate_grade score total) as [[pct grade]|e]; [|discriminate].
  apply andb_true_iff in Hall. destruct Hall as [Hg Hx].
  apply String.eqb_eq in Hg. subst grade.
  destruct (number_to_Q pct) as [x|] eqn:Ex; [|discriminate].
  exists pct, x. split; [reflexivity|]. split; [exact Ex|].
  apply Qle_bool_iff. exact Hx.
Qed.

(** Whatever the integers, the grade is read from the percentage that is
    returned, and only the division of line 89 can raise. *)
Lemma calculate_grade_shape (score total : Z) :
  match calculate_grade score total with
  | Ok (pct, grade) =>
      grade = grade_of pct /\
      (total <= 0 -> pct = PyInt 0) /\
      (0 < total -> exists d : double, pct = PyFloat d)
  | Raise e => e = OverflowError /\ 0 < total
  end.
Proof.
  unfold calculate_grade, true_divide.
  destruct (total >? 0) eqn:Ht.
  - apply Z.gtb_lt in Ht.
    assert (E : (total =? 0) = false) by (apply Z.eqb_neq; lia). rewrite E.
    destruct (SFdiv 53 1024 (int_operand score) (int_operand total));
      cbn [bind];
      try (split; [reflexivity|split; [lia|intros _; eexists; reflexivity]]).
    split; [reflexivity|exact Ht].
  - cbn [bind]. split; [reflexivity|]. split; [reflexivity|].
    intro H. destruct (total >? 0) eqn:E; [discriminate|].
    assert ((total >? 0) = true) by (apply Z.gtb_lt; exact H). congruence.
Qed.




(** The values of the specification's table. *)
Example grade_table :
  map (fun p => calculate_grade (fst p) (snd p))
      [(85, 100); (70, 100); (50, 100); (0, 100)]
  = [Ok (PyFloat (double_of_int 85), "A"%string);
     Ok (PyFloat (double_of_int 70), "B"%string);
     Ok (PyFloat (double_of_int 50), "C"%string);
     Ok (PyFloat (double_of_int 0), "D"%string)] /\
  map (fun p => option_map snd
                  (match calculate_grade (fst p) (snd p) with
                   | Ok r => Some r
                   | Raise _ => None
                   end))
      [(849, 1000); (699, 1000); (499, 1000)]
  = [Some "B"; Some "C"; Some "D"]%string.
Proof. split; vm_compute; reflexivity. Qed.

Example pct_of_empty_total : calculate_grade 0 0 = Ok (PyInt 0, "D"%string).
Proof. reflexivity. Qed.

(** A quotient beyond the largest double: the division raises. *)
Example calculate_grade_overflow : calculate_grade (10 ^ 400) 1 = Raise OverflowError.
Proof. vm_compute. reflexivity. Qed.

(* ------------------------------------------------------------------ *)
(** ** [quiz_session_reset] *)

(** C10. [quiz_session_reset] sets the index to 0, the score to 0 and the
    submissions to the empty list, and leaves ["last_pool"],
    ["quiz_running"] and ["start_time"] as they are; the sidebar's reset
    button does the same and writes neither file. *)
Theorem quiz_session_reset_frame (s : SessionState) (wd : World) (env : Env) :
  let s' := quiz_session_reset s in
  (current_q_index s' = Some 0 /\ score s' = Some 0 /\ answers s' = Some [] /\
   last_pool s' = last_pool s /\ quiz_running s' = quiz_running s /\
   start_time s' = start_time s) /\
  main env true ReadOnlyPage wd =
    Ok {| session := quiz_session_reset (session wd);
          questions_file := questions_file wd;
          results_file := results_file wd;
          page := [SessionReset] |}.
Proof.
  split; [repeat split|reflexivity].
Qed.

(** A reset leaves a started session started: the next run of the quiz
    page on the same selection keeps the stamp of the start. *)
Lemma reset_keeps_identity (s : SessionState) (ids : list Z) :
  in_progress (quiz_session_reset s) ids = in_progress s ids.
Proof. reflexivity. Qed.

(* ------------------------------------------------------------------ *)
(** ** Lists *)

Lemma ids_eqb_eq (a b : list Z) : ids_eqb a b = true <-> a = b.
Proof.
  revert b. induction a as [|x a IH]; intros [|y b]; simpl; split;
    try congruence; try reflexivity.
  - intro H. apply andb_true_iff in H. destruct H as [Hxy Hab].
    apply Z.eqb_eq in Hxy. apply IH in Hab. congruence.
  - intro H. injection H as -> ->. rewrite Z.eqb_refl. simpl. now apply IH.
Qed.

Lemma is_empty_true {A : Type} (l : list A) : is_empty l = true <-> l = [].
Proof. destruct l; simpl; split; congruence. Qed.

Lemma is_empty_false {A : Type} (l : list A) : is_empty l = false <-> l <> [].
Proof. destruct l; simpl; split; congruence. Qed.

Lemma len_nonneg {A : Type} (l : list A) : 0 <= len l.
Proof. unfold len. lia. Qed.

Lemma py_slice_to_firstn {A : Type} (l : list A) (n : Z) :
  0 <= n -> py_slice_to l n = firstn (Z.to_nat n) l.
Proof.
  intro Hn. unfold py_slice_to.
  destruct (n <? 0) eqn:E; [apply Z.ltb_lt in E; lia|reflexivity].
Qed.

Lemma py_slice_to_len {A : Type} (l : list A) (n : Z) :
  0 <= n -> len (py_slice_to l n) = Z.min n (len l).
Proof.
  intro Hn. rewrite py_slice_to_firstn by exact Hn.
  unfold len. rewrite length_firstn. lia.
Qed.

Lemma py_index_in {A : Type} (l : list A) (i : Z) (x : A) :
  py_index l i = Ok x -> In x l.
Proof.
  unfold py_index.
  destruct ((0 <=? (if i <? 0 then len l + i else i)) &&
            ((if i <? 0 then len l + i else i) <? len l)); [|discriminate].
  destruct (nth_error l _) eqn:E; [|discriminate].
  intro H. injection H as <-. eapply nth_error_In, E.
Qed.

Lemma py_index_in_range {A : Type} (l : list A) (i : Z) :
  0 <= i < len l -> exists x, py_index l i = Ok x /\ nth_error l (Z.to_nat i) = Some x.
Proof.
  intros [Hlo Hhi]. unfold py_index.
  destruct (i <? 0) eqn:E; [apply Z.ltb_lt in E; lia|].
  assert (H1 : (0 <=? i) = true) by (apply Z.leb_le; exact Hlo).
  assert (H2 : (i <? len l) = true) by (apply Z.ltb_lt; exact Hhi).
  rewrite H1, H2. simpl.
  destruct (nth_error l (Z.to_nat i)) eqn:En.
  - eauto.
  - apply nth_error_None in En. unfold len in Hhi. lia.
Qed.

(* ------------------------------------------------------------------ *)
(** ** Selection of the questions *)




Lemma subseq_filter {A : Type} (f : A -> bool) (l : list A) : subseq (filter f l) l.
Proof.
  induction l as [|x l IH]; simpl; [constructor|].
  destruct (f x); constructor; exact IH.
Qed.


Lemma filter_pool_empty_bank (cat : string) (qs : list Question) :
  qs = [] -> filter_pool cat qs = [].
Proof. intros ->. unfold filter_pool. now destruct (String.eqb cat "All"). Qed.

Lemma st_slider_accepts (qs : list Question) (picked : Z) :
  1 < len qs -> st_slider 1 (Z.min 20 (len qs)) picked = Ok picked.
Proof.
  intro H. unfold st_slider.
  assert (E : (1 <? Z.min 20 (len qs)) = true) by (apply Z.ltb_lt; lia).
  now rewrite E.
Qed.

Lemma st_slider_rejects (qs : list Question) (picked : Z) :
  len qs = 1 -> st_slider 1 (Z.min 20 (len qs)) picked = Raise StreamlitAPIException.
Proof. intro H. unfold st_slider. rewrite H. reflexivity. Qed.

(** The page on a bank of two questions or more is the run from the pool
    on. *)
Lemma take_quiz_from_pool (env : Env) (w : QuizWidgets) (wd : World) :
  1 < len (questions_file wd) -> take_quiz env w wd = quiz_from_pool env w wd.
Proof.
  intro H. unfold take_quiz.
  destruct (questions_file wd) as [|q qs] eqn:Eqs; [unfold len in H; simpl in H; lia|].
  cbn [is_empty]. rewrite (st_slider_accepts (q :: qs) _ H). reflexivity.
Qed.

(** On a bank of exactly one question the slider of line 122 raises, and
    with it the page. *)
Lemma take_quiz_one_question (env : Env) (w : QuizWidgets) (wd : World) :
  len (questions_file wd) = 1 -> take_quiz env w wd = Raise StreamlitAPIException.
Proof.
  intro H. unfold take_quiz.
  destruct (questions_file wd) as [|q qs] eqn:Eqs; [discriminate H|].
  cbn [is_empty]. rewrite (st_slider_rejects (q :: qs) _ H). reflexivity.
Qed.



(** The scenario of the specification: category "Math" on the default
    bank, five questions asked for. *)
Example math_pool_clamps :
  filter_pool "Math" default_questions =
    [mkQuestion 2 "Math" "What is 7 * 8?" ["54"; "56"; "58"; "49"]%string "56"] /\
  exists wd', take_quiz plain_env math_widgets fresh_world = Ok wd' /\
              last_pool (session wd') = Some [2].
Proof. split; [reflexivity|]. eexists. split; reflexivity. Qed.

(* ------------------------------------------------------------------ *)
(** ** The session of a run *)

Lemma init_session_in_progress (env : Env) (selected : list Question) (s : SessionState) :
  in_progress s (map id selected) = true -> init_session env selected s = s.
Proof. intro H. unfold init_session. now rewrite H. Qed.

Lemma init_session_started (env : Env) (selected : list Question) (s : SessionState) :
  in_progress s (map id selected) = false ->
  init_session env selected s =
    mkSession (Some true) (Some (map id selected)) (Some 0) (Some 0) (Some [])
              (Some (now env)).
Proof. intro H. unfold init_session. now rewrite H. Qed.

Lemma in_progress_last_pool (s : SessionState) (ids : list Z) :
  in_progress s ids = true -> last_pool s = Some ids /\ quiz_running s <> None.
Proof.
  unfold in_progress, same_pool.
  destruct (quiz_running s); [|discriminate].
  destruct (last_pool s) as [l|]; [|discriminate].
  intro H. apply ids_eqb_eq in H. subst. split; [reflexivity|discriminate].
Qed.

Lemma with_session_same (wd : World) : with_session (session wd) wd = wd.
Proof. now destruct wd. Qed.

(** A run on a session in progress whose index is [i], with question [q]
    at that index: the blocks of the run, one after the other. *)
Lemma run_session_in_progress (env : Env) (w : QuizWidgets)
      (selected : list Question) (wd : World) (i : Z) (q : Question) :
  in_progress (session wd) (map id selected) = true ->
  current_q_index (session wd) = Some i ->
  py_index selected i = Ok q ->
  run_session env w selected wd =
    (wd1 <- (if w_previous w then advance Previous selected i wd else Ok wd) ;;
     wd2 <- Ok (if w_submit w then submit_answer q (w_choice w) wd1 else wd1) ;;
     wd3 <- (if w_next w then advance Next selected i wd2 else Ok wd2) ;;
     if i =? len selected - 1 then
       if w_finish w then finish env w selected wd3 else Ok wd3
     else Ok wd3).
Proof.
  intros Hprog Hidx Hq. unfold run_session.
  rewrite (init_session_in_progress env selected _ Hprog), with_session_same.
  rewrite Hidx. simpl get. rewrite Hq. reflexivity.
Qed.

(* ------------------------------------------------------------------ *)
(** ** Navigation *)

Lemma moved_in_range (dir : Direction) (n i : Z) :
  0 <= i <= n - 1 -> 0 <= moved dir n i <= n - 1.
Proof.
  intro H. unfold moved. destruct dir.
  - destruct (i =? 0) eqn:E; [lia|apply Z.eqb_neq in E; lia].
  - destruct (i =? n - 1) eqn:E; [lia|apply Z.eqb_neq in E; lia].
Qed.

Lemma advance_moves (dir : Direction) (selected : list Question) (i : Z) (wd : World) :
  current_q_index (session wd) = Some i ->
  0 <= i <= len selected - 1 ->
  advance dir selected i wd =
    Ok (with_session (at_index (moved dir (len selected) i) (session wd)) wd).
Proof.
  intros Hidx Hi. destruct wd as [s qf rf pg]. destruct s as [r lp ci sc an stt].
  simpl in Hidx. subst ci.
  unfold advance, moved, bump_index, with_session, at_index. simpl.
  destruct dir.
  - destruct (i =? 0) eqn:E.
    + apply Z.eqb_eq in E. subst i. reflexivity.
    + apply Z.eqb_neq in E.
      assert (Hgt : (i >? 0) = true) by (apply Z.gtb_lt; lia).
      rewrite Hgt. reflexivity.
  - destruct (i =? len selected - 1) eqn:E.
    + apply Z.eqb_eq in E.
      assert (Hlt : (i <? len selected - 1) = false) by (apply Z.ltb_ge; lia).
      rewrite Hlt. reflexivity.
    + apply Z.eqb_neq in E.
      assert (Hlt : (i <? len selected - 1) = true) by (apply Z.ltb_lt; lia).
      rewrite Hlt. reflexivity.
Qed.

(** C6. On a session in progress whose index [i] lies in
    [[0, len(selected_questions) - 1]], a run with Previous pressed sets
    the index to [i - 1] and a run with Next pressed sets it to [i + 1],
    except that Previous at 0 and Next at the last index leave it at [i];
    the run raises nothing, changes nothing else, and the new index lies in
    the same interval. *)
Theorem advance_clamped (env : Env) (w : QuizWidgets) (selected : list Question)
        (wd : World) (i : Z) (dir : Direction) :
  in_progress (session wd) (map id selected) = true ->
  current_q_index (session wd) = Some i ->
  0 <= i <= len selected - 1 ->
  pressed (button_of dir) w ->
  let j := match dir with
           | Previous => if i =? 0 then i else i - 1
           | Next => if i =? len selected - 1 then i else i + 1
           end in
  run_session env w selected wd = Ok (with_session (at_index j (session wd)) wd) /\
  0 <= j <= len selected - 1.
Proof.
  intros Hprog Hidx Hi (Hp & Hs & Hn & Hf) j.
  change j with (moved dir (len selected) i).
  split; [|apply moved_in_range, Hi].
  destruct (py_index_in_range selected i) as [q [Hq _]]; [lia|].
  rewrite (run_session_in_progress env w selected wd i q Hprog Hidx Hq).
  rewrite Hp, Hs, Hn, Hf.
  destruct dir; simpl is_button; cbv iota.
  - rewrite (advance_moves Previous selected i wd Hidx Hi). simpl bind.
    now destruct (i =? len selected - 1).
  - unfold bind at 1 2.
    rewrite (advance_moves Next selected i wd Hidx Hi). simpl bind.
    unfold moved. now destruct (i =? len selected - 1).
Qed.

Lemma advance_clamped_witness :
  run_session plain_env (press_next (at_rest "Paris")) default_questions started_world =
    Ok (with_session (at_index 1 (session started_world)) started_world) /\
  0 <= 1 <= 2.
Proof.
  apply (advance_clamped plain_env (press_next (at_rest "Paris")) default_questions
                         started_world 0 Next);
    [reflexivity | reflexivity | simpl; lia | repeat split].
Defined.

(* ------------------------------------------------------------------ *)
(** ** Submission *)

Lemma already_answered_none (qid : Z) (l : list Answer) :
  already_answered qid l = None <-> ~ In qid (map ans_id l).
Proof.
  unfold already_answered. induction l as [|a l IH]; simpl.
  - split; [intros _ []|reflexivity].
  - destruct (ans_id a =? qid) eqn:E.
    + apply Z.eqb_eq in E. split; [discriminate|]. intro H. exfalso. apply H. now left.
    + apply Z.eqb_neq in E. rewrite IH. split.
      * intros H [Ha|Hin]; [contradiction|]. now apply H.
      * intros H Hin. apply H. now right.
Qed.

Lemma already_answered_some (qid : Z) (l : list Answer) :
  In qid (map ans_id l) -> exists a, already_answered qid l = Some a.
Proof.
  intro Hin. destruct (already_answered qid l) as [a|] eqn:E; [eauto|].
  apply already_answered_none in E. contradiction.
Qed.

(** A submission for a question that has one: nothing but the notice. *)
Lemma submit_answer_again (q : Question) (choice : string) (wd : World) :
  In (id q) (map ans_id (get (answers (session wd)) [])) ->
  submit_answer q choice wd = say AlreadyAnswered wd.
Proof.
  intro Hin. destruct wd as [s qf rf pg]. destruct s as [r lp ci sc an stt].
  simpl in Hin. unfold submit_answer. simpl.
  destruct (already_answered_some _ _ Hin) as [a Ha]. rewrite Ha.
  destruct an as [l|]; [reflexivity|]. simpl in Hin. contradiction.
Qed.

(** After a submission the question has one. *)
Lemma submit_answer_recorded (q : Question) (choice : string) (wd : World) :
  In (id q) (map ans_id (get (answers (session (submit_answer q choice wd))) [])).
Proof.
  destruct (in_dec Z.eq_dec (id q) (map ans_id (get (answers (session wd)) [])))
    as [Hin|Hnot].
  - rewrite (submit_answer_again q choice wd Hin). exact Hin.
  - apply already_answered_none in Hnot.
    unfold submit_answer. rewrite Hnot.
    destruct (String.eqb choice (answer q)); simpl;
      rewrite map_app, in_app_iff; right; now left.
Qed.

(** C1. A Submit Answer for a question whose id already has a submission
    leaves the score and the submissions as they are and shows the
    "already answered" notice, whatever the choice.  The first one for the
    id appends the submission [(id, choice, choice == answer)] and adds 1
    to the score exactly when the choice is the answer.  Hence after any
    Submit Answer for a question, a further one for it changes neither the
    score nor the submissions. *)
Theorem submit_answer_idempotent (q : Question) (choice : string) (wd : World) :
  let recorded := get (answers (session wd)) [] in
  let wd' := submit_answer q choice wd in
  (In (id q) (map ans_id recorded) ->
     score (session wd') = score (session wd) /\
     answers (session wd') = answers (session wd) /\
     page wd' = page wd ++ [AlreadyAnswered]) /\
  (~ In (id q) (map ans_id recorded) ->
     answers (session wd') =
       Some (recorded ++ [(id q, choice, String.eqb choice (answer q))]) /\
     (choice = answer q -> score (session wd') = Some (get (score (session wd)) 0 + 1)) /\
     (choice <> answer q -> score (session wd') = score (session wd))) /\
  (forall choice2 : string,
     let wd'' := submit_answer q choice2 wd' in
     score (session wd'') = score (session wd') /\
     answers (session wd'') = answers (session wd') /\
     page wd'' = page wd' ++ [AlreadyAnswered]).
Proof.
  intros recorded wd'. split; [|split].
  - intro Hin. subst wd'. rewrite (submit_answer_again q choice wd Hin).
    repeat split.
  - intro Hnot. apply already_answered_none in Hnot.
    subst wd'. unfold submit_answer. fold recorded. rewrite Hnot.
    destruct (String.eqb choice (answer q)) eqn:E.
    + apply String.eqb_eq in E. repeat split. intro Hne. contradiction.
    + apply String.eqb_neq in E. repeat split. intro He. contradiction.
  - intros choice2 wd''. subst wd''.
    rewrite (submit_answer_again q choice2 wd' (submit_answer_recorded q choice wd)).
    repeat split.
Qed.

Lemma submit_answer_idempotent_witness :
  In 1 (map ans_id [(1, "London", false)]%string) /\
  score (session (submit_answer (mkQuestion 1 "c" "q" ["Paris"; "London"]%string "Paris")
                                "Paris"
                                (with_session
                                   (mkSession (Some true) (Some [1]) (Some 0) (Some 0)
                                              (Some [(1, "London", false)]%string) None)
                                   fresh_world)))
  = Some 0.
Proof.
  split; [now left|].
  refine (proj1 (proj1 (submit_answer_idempotent
           (mkQuestion 1 "c" "q" ["Paris"; "London"]%string "Paris") "Paris"
           (with_session
              (mkSession (Some true) (Some [1]) (Some 0) (Some 0)
                         (Some [(1, "London", false)]%string) None)
              fresh_world)) _)).
  simpl. now left.
Defined.

(** A run on a session in progress with only Submit Answer pressed is the
    submission of the radio's value for the question at the index. *)
Lemma run_session_submit (env : Env) (w : QuizWidgets) (selected : list Question)
      (wd : World) (i : Z) (q : Question) :
  in_progress (session wd) (map id selected) = true ->
  current_q_index (session wd) = Some i ->
  py_index selected i = Ok q ->
  pressed BSubmit w ->
  run_session env w selected wd = Ok (submit_answer q (w_choice w) wd).
Proof.
  intros Hprog Hidx Hq (Hp & Hs & Hn & Hf).
  rewrite (run_session_in_progress env w selected wd i q Hprog Hidx Hq).
  rewrite Hp, Hs, Hn, Hf. simpl.
  now destruct (i =? len selected - 1).
Qed.

(** Two runs with Submit Answer on the first question of the default
    bank, a wrong choice and then the right one: the second changes
    nothing. *)
Example resubmission_rejected :
  exists wd1 wd2,
    take_quiz plain_env (press_submit (at_rest "London")) fresh_world = Ok wd1 /\
    take_quiz plain_env (press_submit (at_rest "Paris")) wd1 = Ok wd2 /\
    session wd2 = session wd1 /\
    score (session wd1) = Some 0 /\
    answers (session wd1) = Some [(1, "London", false)]%string /\
    page wd2 = page wd1 ++ [AlreadyAnswered].
Proof. do 2 eexists. repeat split. Qed.

(* ------------------------------------------------------------------ *)
(** ** A choice outside the question's choices *)

(** C9, as stated, fails: the run with Submit Answer and the choice "Rome"
    for the first question of the default bank, whose choices are Paris,
    London, Berlin and Madrid, raises nothing and records an incorrect
    submission. *)
Lemma submit_outside_choices_absorbed :
  exists q : Question,
    py_index default_questions 0 = Ok q /\
    ~ In "Rome"%string (choices q) /\
    take_quiz plain_env (press_submit (at_rest "Rome")) started_world =
      Ok {| session := mkSession (Some true) (Some [1; 2; 3]) (Some 0) (Some 0)
                                 (Some [(1, "Rome", false)]%string)
                                 (Some "2024-01-01T00:00:00"%string);
            questions_file := default_questions;
            results_file := [];
            page := [Incorrect "Paris"] |}.
Proof.
  eexists. split; [reflexivity|]. split; [|reflexivity].
  simpl. intros [H|[H|[H|[H|[]]]]]; discriminate.
Qed.

(** C9, amended. Submit Answer does not test the choice against the
    question's choices (the radio button only offers those): on a session
    in progress the run raises nothing for any choice, and for a question
    without a submission whose answer is among its choices, a choice
    outside the choices is recorded as an incorrect submission, the score
    unchanged and the canonical answer shown. *)
Theorem submit_outside_choices_recorded (env : Env) (w : QuizWidgets)
        (selected : list Question) (wd : World) (i : Z) (q : Question) :
  in_progress (session wd) (map id selected) = true ->
  current_q_index (session wd) = Some i ->
  py_index selected i = Ok q ->
  pressed BSubmit w ->
  ~ In (w_choice w) (choices q) ->
  In (answer q) (choices q) ->
  ~ In (id q) (map ans_id (get (answers (session wd)) [])) ->
  exists wd',
    run_session env w selected wd = Ok wd' /\
    answers (session wd') =
      Some (get (answers (session wd)) [] ++ [(id q, w_choice w, false)]) /\
    score (session wd') = score (session wd) /\
    page wd' = page wd ++ [Incorrect (answer q)].
Proof.
  intros Hprog Hidx Hq Hpressed Hout Hans Hnew.
  exists (submit_answer q (w_choice w) wd). split.
  - exact (run_session_submit env w selected wd i q Hprog Hidx Hq Hpressed).
  - assert (Hne : String.eqb (w_choice w) (answer q) = false).
    { apply String.eqb_neq. intro E. apply Hout. rewrite E. exact Hans. }
    apply already_answered_none in Hnew.
    unfold submit_answer. rewrite Hnew, Hne. repeat split.
Qed.

Lemma submit_outside_choices_recorded_witness :
  exists wd',
    run_session plain_env (press_submit (at_rest "Rome")) default_questions
                started_world = Ok wd' /\
    answers (session wd') = Some [(1, "Rome", false)]%string /\
    score (session wd') = Some 0 /\
    page wd' = [Incorrect "Paris"].
Proof.
  apply (submit_outside_choices_recorded
           plain_env (press_submit (at_rest "Rome")) default_questions started_world 0
           (mkQuestion 1 "General Knowledge" "What is the capital of France?"
                       ["Paris"; "London"; "Berlin"; "Madrid"]%string "Paris")).
  - reflexivity.
  - reflexivity.
  - reflexivity.
  - repeat split.
  - simpl. intros [H|[H|[H|[H|[]]]]]; discriminate.
  - simpl. now left.
  - simpl. intros [].
Defined.

(* ------------------------------------------------------------------ *)
(** ** Finish *)

(** Finish Quiz, when the grade is computed, writes [False] under
    ["quiz_running"], appends one record to the results and leaves the
    rest of the session dictionary as it is. *)
Lemma finish_marks_inactive (env : Env) (w : QuizWidgets) (selected : list Question)
      (wd wd' : World) :
  finish env w selected wd = Ok wd' ->
  quiz_running (session wd') = Some false /\
  last_pool (session wd') = last_pool (session wd) /\
  current_q_index (session wd') = current_q_index (session wd) /\
  score (session wd') = score (session wd) /\
  answers (session wd') = answers (session wd) /\
  start_time (session wd') = start_time (session wd) /\
  questions_file wd' = questions_file wd /\
  exists r, results_file wd' = results_file wd ++ [r] /\
            r_score r = get (score (session wd)) 0 /\
            r_total r = len selected /\
            r_answers r = get (answers (session wd)) [] /\
            calculate_grade (r_score r) (r_total r) = Ok (r_pct r, r_grade r).
Proof.
  unfold finish.
  destruct (calculate_grade (get (score (session wd)) 0) (len selected))
    as [[pct grade]|e] eqn:E; cbn [bind]; [|discriminate].
  intro H. injection H as <-.
  simpl. repeat split. eexists. split; [reflexivity|]. simpl.
  repeat split. exact E.
Qed.

(** Finish Quiz returns when the grade is computed, and raises what
    [calculate_grade] raises. *)
Lemma finish_returns (env : Env) (w : QuizWidgets) (selected : list Question)
      (wd : World) (graded : Number * string) :
  calculate_grade (get (score (session wd)) 0) (len selected) = Ok graded ->
  exists wd', finish env w selected wd = Ok wd'.
Proof. intro E. unfold finish. rewrite E. cbn [bind]. eauto. Qed.

(** The test that starts a session only asks whether the key
    ["quiz_running"] is there: its value is never read. *)
Lemma in_progress_ignores_flag (s : SessionState) (ids : list Z) (b : bool) :
  quiz_running s <> None ->
  in_progress
    {| quiz_running := Some b;
       last_pool := last_pool s;
       current_q_index := current_q_index s;
       score := score s;
       answers := answers s;
       start_time := start_time s |} ids
  = in_progress s ids.
Proof.
  intro H. unfold in_progress, same_pool. simpl.
  destruct (quiz_running s); [reflexivity|contradiction].
Qed.

(** C4, on the code. On the default bank: a session is started, Next is
    pressed twice and then Finish Quiz; the session is marked
    [quiz_running = False] at index 2 with score 0 and no submission.  On
    the same selection, a later run with Previous moves the index to 1, and
    a later run with Submit Answer records a submission and raises the
    score to 1. *)
Theorem finished_session_still_accepts :
  runs plain_env [at_rest "H2O"; press_next (at_rest "H2O");
                  press_next (at_rest "H2O"); press_finish (at_rest "H2O")]
       fresh_world = Ok finished_world /\
  session finished_world =
    mkSession (Some false) (Some [1; 2; 3]) (Some 2) (Some 0) (Some [])
              (Some "2024-01-01T00:00:00"%string) /\
  take_quiz plain_env (press_previous (at_rest "H2O")) finished_world =
    Ok (with_session
          (mkSession (Some false) (Some [1; 2; 3]) (Some 1) (Some 0) (Some [])
                     (Some "2024-01-01T00:00:00"%string))
          finished_world) /\
  take_quiz plain_env (press_submit (at_rest "H2O")) finished_world =
    Ok (say Correct
          (with_session
             (mkSession (Some false) (Some [1; 2; 3]) (Some 2) (Some 1)
                        (Some [(3, "H2O", true)]%string)
                        (Some "2024-01-01T00:00:00"%string))
             finished_world)).
Proof. repeat split; vm_compute; reflexivity. Qed.

(* ------------------------------------------------------------------ *)
(** ** The editor *)

Lemma str_in_iff (x : string) (l : list string) : str_in x l = true <-> In x l.
Proof.
  unfold str_in. rewrite existsb_exists. split.
  - intros [y [Hy E]]. apply String.eqb_eq in E. now subst.
  - intro H. exists x. split; [exact H|apply String.eqb_refl].
Qed.

Lemma find_by_id (qid : Z) (qs : list Question) :
  In qid (map id qs) -> exists q, find (fun q => id q =? qid) qs = Some q /\ id q = qid.
Proof.
  induction qs as [|q0 qs IH]; simpl; [intros []|].
  intro H. destruct (id q0 =? qid) eqn:E.
  - apply Z.eqb_eq in E. eauto.
  - apply Z.eqb_neq in E. destruct H as [H|H]; [contradiction|]. now apply IH.
Qed.

(** The editor never writes the session dictionary or the results. *)
Lemma edit_existing_frame (f : EditForm) (wd : World) (qs' : list Question) (wd' : World) :
  edit_existing f wd = Ok (qs', wd') ->
  session wd' = session wd /\ results_file wd' = results_file wd.
Proof.
  unfold edit_existing.
  destruct (is_empty (questions_file wd)).
  { intro H. injection H as <- <-. split; reflexivity. }
  destruct (find _ _); [|discriminate].
  destruct (f_submitted f).
  - destruct (negb _); intro H; injection H as <- <-; split; reflexivity.
  - intro H. injection H as <- <-. split; reflexivity.
Qed.

(** C8. When the entered answer is not among the new choices, Save Changes
    is answered with an error and nothing else: the list of questions the
    run loaded, hence every field of the chosen question, and the bank on
    disk are as before.  A run that changes the loaded list or the bank on
    disk is one where Save Changes was pressed with the answer among the
    new choices; the loaded list with the chosen question updated is then
    what is saved. *)
Theorem edit_rejected_unchanged (f : EditForm) (wd : World) :
  (f_submitted f = true ->
   In (f_qid f) (map id (questions_file wd)) ->
   ~ In (f_answer f) (parse_choices (f_choices_raw f)) ->
   exists wd',
     edit_existing f wd = Ok (questions_file wd, wd') /\
     questions_file wd' = questions_file wd /\
     results_file wd' = results_file wd /\
     session wd' = session wd /\
     page wd' = page wd ++ [AnswerMustMatch]) /\
  (forall (qs' : list Question) (wd' : World),
     edit_existing f wd = Ok (qs', wd') ->
     qs' <> questions_file wd \/ questions_file wd' <> questions_file wd ->
     f_submitted f = true /\
     In (f_answer f) (parse_choices (f_choices_raw f)) /\
     qs' = update_in_place (f_qid f) f (parse_choices (f_choices_raw f))
                           (questions_file wd) /\
     questions_file wd' = qs').
Proof.
  split.
  - intros Hsub Hqid Hout. exists (say AnswerMustMatch wd).
    split; [|repeat split].
    unfold edit_existing.
    destruct (find_by_id _ _ Hqid) as [q [Hfind _]].
    destruct (questions_file wd) as [|q0 rest] eqn:Eqs; [destruct Hqid|].
    simpl is_empty. cbv iota. rewrite Hfind, Hsub.
    assert (E : str_in (f_answer f) (parse_choices (f_choices_raw f)) = false).
    { destruct (str_in _ _) eqn:E; [|reflexivity].
      apply str_in_iff in E. contradiction. }
    rewrite E. reflexivity.
  - intros qs' wd' Hrun Hchanged. unfold edit_existing in Hrun.
    destruct (is_empty (questions_file wd)).
    { injection Hrun as <- <-. simpl in Hchanged. now destruct Hchanged. }
    destruct (find _ _) as [q|] eqn:Hfind; [|discriminate].
    assert (Hid : id q = f_qid f).
    { apply find_some in Hfind. now apply Z.eqb_eq. }
    destruct (f_submitted f).
    + destruct (str_in (f_answer f) (parse_choices (f_choices_raw f))) eqn:E;
        simpl in Hrun; injection Hrun as <- <-.
      * apply str_in_iff in E. rewrite Hid. repeat split. exact E.
      * simpl in Hchanged. now destruct Hchanged.
    + injection Hrun as <- <-. now destruct Hchanged.
Qed.

Lemma edit_rejected_unchanged_witness :
  exists wd',
    edit_existing paris_struck fresh_world = Ok (default_questions, wd') /\
    questions_file wd' = default_questions /\
    results_file wd' = [] /\
    session wd' = empty_session /\
    page wd' = [AnswerMustMatch].
Proof.
  apply (proj1 (edit_rejected_unchanged paris_struck fresh_world)).
  - reflexivity.
  - simpl. now left.
  - vm_compute. intros [H|[H|[H|[]]]]; discriminate.
Defined.

(** The same form with "Paris" among the choices is saved. *)
Example edit_accepted :
  exists qs' wd',
    edit_existing
      (mkEditForm 1 "Geography" "Capital of France?"
                  ("Paris" ++ nl ++ " Lyon ") "Paris" true) fresh_world = Ok (qs', wd') /\
    questions_file wd' = qs' /\
    nth_error qs' 0 =
      Some (mkQuestion 1 "Geography" "Capital of France?" ["Paris"; "Lyon"]%string "Paris").
Proof. do 2 eexists. repeat split. Qed.

(* ------------------------------------------------------------------ *)
(** ** The invariant of the session *)

Lemma NoDup_snoc {A : Type} (l : list A) (x : A) :
  NoDup l -> ~ In x l -> NoDup (l ++ [x]).
Proof.
  induction l as [|y l IH]; simpl; intros Hnd Hx.
  - constructor; [intros []|constructor].
  - inversion Hnd as [|y' l' Hy Hl]; subst. constructor.
    + rewrite in_app_iff. intros [H|[H|[]]]; [contradiction|].
      apply Hx. now left.
    + apply IH; [exact Hl|]. intro H. apply Hx. now right.
Qed.

Lemma count_correct_snoc (l : list Answer) (a : Answer) :
  count_correct (l ++ [a]) = count_correct l + (if ans_correct a then 1 else 0).
Proof.
  unfold count_correct, len. rewrite filter_app, length_app. simpl.
  destruct (ans_correct a); simpl; lia.
Qed.

Lemma session_inv_bound (s : SessionState) :
  session_inv s ->
  len (get (answers s) []) <= len (get (last_pool s) []).
Proof.
  intros (_ & Hnd & Hincl).
  pose proof (NoDup_incl_length Hnd Hincl) as H.
  rewrite length_map in H. unfold len. lia.
Qed.

Lemma session_inv_reset (s : SessionState) : session_inv (quiz_session_reset s).
Proof.
  unfold session_inv. simpl. repeat split.
  - constructor.
  - intros x [].
Qed.

Lemma index_inv_reset (s : SessionState) : index_inv s -> index_inv (quiz_session_reset s).
Proof.
  unfold index_inv. simpl. intros H Hrun.
  destruct (H Hrun) as [i [_ Hi]]. exists 0. split; [reflexivity|lia].
Qed.

Lemma session_inv_submit (q : Question) (choice : string) (wd : World) :
  session_inv (session wd) ->
  In (id q) (get (last_pool (session wd)) []) ->
  session_inv (session (submit_answer q choice wd)).
Proof.
  intros (Hscore & Hnd & Hincl) Hq.
  unfold submit_answer.
  destruct (already_answered (id q) (get (answers (session wd)) [])) eqn:Ea.
  - unfold session_inv. simpl. auto.
  - apply already_answered_none in Ea.
    assert (Hnd' : NoDup (map ans_id (get (answers (session wd)) [] ++
                                      [(id q, choice, String.eqb choice (answer q))]))).
    { rewrite map_app. simpl. now apply NoDup_snoc. }
    assert (Hincl' : incl (map ans_id (get (answers (session wd)) [] ++
                                       [(id q, choice, String.eqb choice (answer q))]))
                          (get (last_pool (session wd)) [])).
    { rewrite map_app. apply incl_app; [exact Hincl|].
      intros x [<-|[]]. exact Hq. }
    destruct (String.eqb choice (answer q)) eqn:E; unfold session_inv; simpl;
      (split; [|split; [exact Hnd'|exact Hincl']]);
      rewrite count_correct_snoc; simpl; lia.
Qed.

(** The blocks of a run keep [run_inv]. *)
Lemma run_inv_widen (selected : list Question) (lo hi lo' hi' : Z) (wd : World) :
  run_inv selected lo hi wd -> lo' <= lo -> hi <= hi' -> run_inv selected lo' hi' wd.
Proof.
  intros (Hinv & Hpool & Hrun & i & Hidx & Hi) Hlo Hhi.
  split; [exact Hinv|]. split; [exact Hpool|]. split; [exact Hrun|].
  exists i. split; [exact Hidx|lia].
Qed.

Lemma run_inv_advance (dir : Direction) (selected : list Question) (qi lo hi : Z)
      (wd : World) :
  run_inv selected lo hi wd ->
  exists wd',
    advance dir selected qi wd = Ok wd' /\
    run_inv selected
            (match dir with Previous => if qi >? 0 then lo - 1 else lo | Next => lo end)
            (match dir with
             | Previous => hi
             | Next => if qi <? len selected - 1 then hi + 1 else hi
             end) wd'.
Proof.
  intros (Hinv & Hpool & Hrun & i & Hidx & Hi).
  destruct wd as [s qf rf pg]. destruct s as [r lp ci sc an stt].
  simpl in *. subst ci.
  unfold advance, bump_index. simpl.
  destruct dir.
  - destruct (qi >? 0); eexists; (split; [reflexivity|]);
      unfold run_inv; simpl;
      (split; [exact Hinv|split; [exact Hpool|split; [exact Hrun|]]]);
      eexists; (split; [reflexivity|lia]).
  - destruct (qi <? len selected - 1); eexists; (split; [reflexivity|]);
      unfold run_inv; simpl;
      (split; [exact Hinv|split; [exact Hpool|split; [exact Hrun|]]]);
      eexists; (split; [reflexivity|lia]).
Qed.

Lemma run_inv_submit (q : Question) (choice : string) (selected : list Question)
      (lo hi : Z) (wd : World) :
  In q selected ->
  run_inv selected lo hi wd ->
  run_inv selected lo hi (submit_answer q choice wd).
Proof.
  intros Hq (Hinv & Hpool & Hrun & i & Hidx & Hi).
  split.
  { apply session_inv_submit; [exact Hinv|]. rewrite Hpool. simpl.
    apply in_map, Hq. }
  unfold submit_answer.
  destruct (already_answered _ _); [|destruct (String.eqb _ _)]; simpl;
    (split; [exact Hpool|split; [exact Hrun|exists i; split; assumption]]).
Qed.

Lemma run_inv_finish (env : Env) (w : QuizWidgets) (selected : list Question)
      (lo hi : Z) (wd wd' : World) :
  finish env w selected wd = Ok wd' ->
  run_inv selected lo hi wd -> run_inv selected lo hi wd'.
Proof.
  intros Hfin (Hinv & Hpool & Hrun & i & Hidx & Hi).
  destruct (finish_marks_inactive env w selected wd wd' Hfin)
    as (Hr & Hlp & Hci & Hsc & Han & _).
  unfold run_inv, session_inv. rewrite Hr, Hlp, Hci, Hsc, Han.
  split; [exact Hinv|].
  split; [exact Hpool|]. split; [discriminate|]. exists i. split; assumption.
Qed.

Lemma run_inv_init (env : Env) (selected : list Question) (wd : World) :
  selected <> [] ->
  session_inv (session wd) -> index_inv (session wd) ->
  exists i, 0 <= i <= len selected - 1 /\
            current_q_index (init_session env selected (session wd)) = Some i /\
            run_inv selected i i
                    (with_session (init_session env selected (session wd)) wd).
Proof.
  intros Hne Hinv Hidx.
  destruct (in_progress (session wd) (map id selected)) eqn:E.
  - rewrite (init_session_in_progress env selected _ E), with_session_same.
    destruct (in_progress_last_pool _ _ E) as [Hpool Hrun].
    destruct (Hidx Hrun) as [i [Hi Hrange]].
    rewrite Hpool in Hrange. simpl in Hrange. unfold len in Hrange.
    rewrite length_map in Hrange.
    exists i. split; [unfold len; lia|]. split; [exact Hi|].
    split; [exact Hinv|]. split; [exact Hpool|]. split; [exact Hrun|].
    exists i. split; [exact Hi|lia].
  - rewrite (init_session_started env selected _ E).
    exists 0. split.
    { destruct selected; [contradiction|]. unfold len. cbn [List.length]. lia. }
    split; [reflexivity|].
    unfold run_inv, session_inv. simpl.
    split; [split; [reflexivity|split; [constructor|intros x []]]|].
    split; [reflexivity|]. split; [discriminate|].
    exists 0. split; [reflexivity|lia].
Qed.

Lemma advance_files (dir : Direction) (selected : list Question) (qi : Z)
      (wd wd' : World) :
  advance dir selected qi wd = Ok wd' ->
  questions_file wd' = questions_file wd /\ results_file wd' = results_file wd.
Proof.
  unfold advance, bump_index.
  destruct dir.
  - destruct (qi >? 0).
    + destruct (current_q_index (session wd)); simpl; [|discriminate].
      intro H. injection H as <-. split; reflexivity.
    + intro H. injection H as <-. split; reflexivity.
  - destruct (qi <? len selected - 1).
    + destruct (current_q_index (session wd)); simpl; [|discriminate].
      intro H. injection H as <-. split; reflexivity.
    + intro H. injection H as <-. split; reflexivity.
Qed.

Lemma submit_answer_files (q : Question) (choice : string) (wd : World) :
  questions_file (submit_answer q choice wd) = questions_file wd /\
  results_file (submit_answer q choice wd) = results_file wd.
Proof.
  unfold submit_answer.
  destruct (already_answered _ _); [|destruct (String.eqb _ _)]; split; reflexivity.
Qed.

Lemma snoc_not_self {A : Type} (l : list A) (x : A) : l <> l ++ [x].
Proof.
  intro H. apply (f_equal (@List.length A)) in H.
  rewrite length_app in H. simpl in H. lia.
Qed.

(** The stages of a run on a non-empty selection, from a session
    dictionary that satisfies the invariants: the world [wd3] after the
    navigation and submission blocks has the files of the start, and the
    run ends in it, or in [finish] of it when Finish Quiz is pressed on the
    last question. *)
Lemma run_session_stages (env : Env) (w : QuizWidgets) (selected : list Question)
      (wd : World) :
  selected <> [] ->
  session_inv (session wd) -> index_inv (session wd) ->
  exists (i : Z) (wd3 : World),
    run_inv selected 0 (len selected - 1) wd3 /\
    questions_file wd3 = questions_file wd /\
    results_file wd3 = results_file wd /\
    run_session env w selected wd =
      if (i =? len selected - 1) && w_finish w
      then finish env w selected wd3 else Ok wd3.
Proof.
  intros Hne Hinv Hidx.
  destruct (run_inv_init env selected wd Hne Hinv Hidx) as (i & Hi & Hci & H0).
  unfold run_session.
  set (wd0 := with_session (init_session env selected (session wd)) wd) in *.
  assert (F0 : questions_file wd0 = questions_file wd /\
               results_file wd0 = results_file wd) by (split; reflexivity).
  assert (Hci0 : current_q_index (session wd0) = Some i) by exact Hci.
  rewrite Hci0. cbn [get].
  destruct (py_index_in_range selected i) as [q [Hq _]]; [lia|].
  assert (Hqin : In q selected) by (eapply py_index_in; exact Hq).
  rewrite Hq. cbn [bind].
  assert (H1 : exists wd1,
             (if w_previous w then advance Previous selected i wd0 else Ok wd0) = Ok wd1 /\
             run_inv selected (if i >? 0 then i - 1 else i) i wd1 /\
             questions_file wd1 = questions_file wd /\
             results_file wd1 = results_file wd).
  { destruct (w_previous w).
    - destruct (run_inv_advance Previous selected i i i wd0 H0) as [wd1 [E R]].
      destruct (advance_files _ _ _ _ _ E) as [Fq Fr].
      exists wd1. rewrite Fq, Fr. auto.
    - exists wd0. split; [reflexivity|]. split; [|exact F0].
      eapply run_inv_widen; [exact H0| |lia]. destruct (i >? 0); lia. }
  destruct H1 as (wd1 & E1 & R1 & Fq1 & Fr1). rewrite E1. cbn [bind].
  set (wd2 := if w_submit w then submit_answer q (w_choice w) wd1 else wd1).
  assert (R2 : run_inv selected (if i >? 0 then i - 1 else i) i wd2 /\
               questions_file wd2 = questions_file wd /\
               results_file wd2 = results_file wd).
  { subst wd2. destruct (w_submit w); [|auto].
    destruct (submit_answer_files q (w_choice w) wd1) as [Fq Fr].
    rewrite Fq, Fr. split; [now apply run_inv_submit|auto]. }
  destruct R2 as (R2 & Fq2 & Fr2).
  assert (H3 : exists wd3,
             (if w_next w then advance Next selected i wd2 else Ok wd2) = Ok wd3 /\
             run_inv selected 0 (len selected - 1) wd3 /\
             questions_file wd3 = questions_file wd /\
             results_file wd3 = results_file wd).
  { destruct (w_next w).
    - destruct (run_inv_advance Next selected i _ _ wd2 R2) as [wd3 [E3 R3]].
      destruct (advance_files _ _ _ _ _ E3) as [Fq Fr].
      exists wd3. rewrite Fq, Fr. split; [exact E3|]. split; [|auto].
      eapply run_inv_widen; [exact R3| |].
      + destruct (i >? 0) eqn:E; [apply Z.gtb_lt in E|]; lia.
      + destruct (i <? len selected - 1) eqn:E; [apply Z.ltb_lt in E|]; lia.
    - exists wd2. split; [reflexivity|]. split; [|auto].
      eapply run_inv_widen; [exact R2| |lia].
      destruct (i >? 0) eqn:E; [apply Z.gtb_lt in E|]; lia. }
  destruct H3 as (wd3 & E3 & R3 & Fq3 & Fr3). rewrite E3. cbn [bind].
  exists i, wd3. split; [exact R3|]. split; [exact Fq3|]. split; [exact Fr3|].
  destruct (i =? len selected - 1); destruct (w_finish w); reflexivity.
Qed.

Lemma count_correct_le (l : list Answer) : 0 <= count_correct l <= len l.
Proof.
  unfold count_correct, len. pose proof (filter_length_le ans_correct l). lia.
Qed.

(** Within a run the score lies between 0 and the size of the selection,
    so that Finish Quiz computes its grade when the selection has at most
    100 questions. *)
Lemma run_inv_graded (selected : list Question) (lo hi : Z) (wd : World) :
  run_inv selected lo hi wd ->
  0 <= get (score (session wd)) 0 <= len selected.
Proof.
  intros (Hinv & Hpool & _).
  pose proof (session_inv_bound _ Hinv) as Hb.
  rewrite Hpool in Hb. simpl in Hb.
  assert (El : len (map id selected) = len selected)
    by (unfold len; now rewrite length_map).
  rewrite El in Hb.
  destruct Hinv as (Hscore & _). rewrite Hscore.
  pose proof (count_correct_le (get (answers (session wd)) [])). lia.
Qed.

Lemma run_inv_finish_returns (env : Env) (w : QuizWidgets) (selected : list Question)
      (lo hi : Z) (wd : World) :
  run_inv selected lo hi wd -> len selected <= 100 ->
  exists wd', finish env w selected wd = Ok wd'.
Proof.
  intros R Hlen. pose proof (run_inv_graded _ _ _ _ R) as Hs.
  destruct (calculate_grade_in_range _ _ Hs Hlen) as (pct & x & E & _).
  exact (finish_returns env w selected wd _ E).
Qed.

(** A run that returns, on a non-empty selection and from a session
    dictionary that satisfies the invariants, ends in one that satisfies
    them, started on that selection. *)
Lemma run_session_keeps_inv (env : Env) (w : QuizWidgets) (selected : list Question)
      (wd wd' : World) :
  selected <> [] ->
  session_inv (session wd) -> index_inv (session wd) ->
  run_session env w selected wd = Ok wd' ->
  run_inv selected 0 (len selected - 1) wd'.
Proof.
  intros Hne Hinv Hidx Hrun.
  destruct (run_session_stages env w selected wd Hne Hinv Hidx)
    as (i & wd3 & R3 & _ & _ & E).
  rewrite E in Hrun.
  destruct ((i =? len selected - 1) && w_finish w).
  - exact (run_inv_finish env w selected _ _ wd3 wd' Hrun R3).
  - injection Hrun as <-. exact R3.
Qed.

(** Such a run returns when the selection has at most 100 questions. *)
Lemma run_session_returns (env : Env) (w : QuizWidgets) (selected : list Question)
      (wd : World) :
  selected <> [] -> len selected <= 100 ->
  session_inv (session wd) -> index_inv (session wd) ->
  exists wd', run_session env w selected wd = Ok wd'.
Proof.
  intros Hne Hlen Hinv Hidx.
  destruct (run_session_stages env w selected wd Hne Hinv Hidx)
    as (i & wd3 & R3 & _ & _ & E).
  rewrite E.
  destruct ((i =? len selected - 1) && w_finish w); [|eauto].
  exact (run_inv_finish_returns env w selected _ _ wd3 R3 Hlen).
Qed.

Lemma run_inv_session (selected : list Question) (wd : World) :
  run_inv selected 0 (len selected - 1) wd ->
  session_inv (session wd) /\ index_inv (session wd) /\
  last_pool (session wd) = Some (map id selected).
Proof.
  intros (Hinv & Hpool & Hrun & i & Hidx & Hi).
  split; [exact Hinv|]. split; [|exact Hpool].
  intros _. exists i. split; [exact Hidx|].
  rewrite Hpool. simpl. unfold len in *. rewrite length_map. lia.
Qed.

(** The selection of a run with valid widgets on a non-empty pool is not
    empty. *)
Lemma select_questions_nonempty (env : Env) (w : QuizWidgets) (pool : list Question) :
  1 <= w_num_questions w ->
  (forall l, Permutation l (shuffled env l)) ->
  pool <> [] ->
  select_questions env w pool <> [].
Proof.
  intros Hn Hperm Hpool. unfold select_questions.
  set (ordered := if w_shuffle w then shuffled env pool else pool).
  assert (Hord : ordered <> []).
  { subst ordered. destruct (w_shuffle w); [|exact Hpool].
    intro E. apply Hpool. apply Permutation_nil. rewrite <- E.
    apply Permutation_sym, Hperm. }
  rewrite py_slice_to_firstn by lia.
  destruct ordered as [|x l]; [contradiction|].
  destruct (Z.to_nat (w_num_questions w)) eqn:E; [lia|]. simpl. discriminate.
Qed.

(** A run of the quiz page that returns, with valid widgets and from a
    session dictionary that satisfies the invariants. *)
Lemma take_quiz_keeps_inv (env : Env) (w : QuizWidgets) (wd wd' : World) :
  valid_input env (TakeQuiz w) wd ->
  session_inv (session wd) -> index_inv (session wd) ->
  take_quiz env w wd = Ok wd' ->
  session_inv (session wd') /\ index_inv (session wd') /\
  (filter_pool (w_category w) (questions_file wd) <> [] ->
   last_pool (session wd') =
     Some (map id (select_questions env w
                     (filter_pool (w_category w) (questions_file wd))))).
Proof.
  intros [Hn Hperm] Hinv Hidx. unfold take_quiz.
  destruct (is_empty (questions_file wd)) eqn:Eqs.
  { intro H. injection H as <-. simpl. split; [exact Hinv|]. split; [exact Hidx|].
    intro H. exfalso. apply H. apply filter_pool_empty_bank.
    now apply is_empty_true. }
  destruct (st_slider 1 (Z.min 20 (len (questions_file wd))) (w_num_questions w));
    cbn [bind]; [|discriminate].
  unfold quiz_from_pool.
  destruct (is_empty (filter_pool (w_category w) (questions_file wd))) eqn:Epool.
  { intro H. injection H as <-. simpl. split; [exact Hinv|]. split; [exact Hidx|].
    intro H. apply is_empty_true in Epool. contradiction. }
  apply is_empty_false in Epool.
  pose proof (select_questions_nonempty env w _ (proj1 Hn) Hperm Epool) as Hsel.
  intro Hrun.
  pose proof (run_session_keeps_inv env w _ wd wd' Hsel Hinv Hidx Hrun) as R.
  destruct (run_inv_session _ _ R) as (H1 & H2 & H3). auto.
Qed.

Lemma main_keeps_inv (env : Env) (reset : bool) (p : Page) (wd wd' : World) :
  valid_input env p wd ->
  session_inv (session wd) -> index_inv (session wd) ->
  main env reset p wd = Ok wd' ->
  session_inv (session wd') /\ index_inv (session wd').
Proof.
  intros Hvalid Hinv Hidx. unfold main.
  set (wd0 := {| session := session wd; questions_file := questions_file wd;
                 results_file := results_file wd; page := [] |}).
  set (wd1 := if reset
              then say SessionReset (with_session (quiz_session_reset (session wd0)) wd0)
              else wd0).
  assert (H1 : session_inv (session wd1) /\ index_inv (session wd1) /\
               questions_file wd1 = questions_file wd).
  { subst wd1. destruct reset; simpl.
    - split; [apply session_inv_reset|]. split; [now apply index_inv_reset|reflexivity].
    - auto. }
  destruct H1 as (Hinv1 & Hidx1 & Hqf).
  destruct p as [w|f|].
  - intro Hrun.
    assert (Hvalid1 : valid_input env (TakeQuiz w) wd1).
    { unfold valid_input in *. now rewrite Hqf. }
    destruct (take_quiz_keeps_inv env w wd1 wd' Hvalid1 Hinv1 Hidx1 Hrun)
      as (R1 & R2 & _).
    split; assumption.
  - destruct (edit_existing f wd1) as [[qs' wd2]|e] eqn:E; simpl; [|discriminate].
    intro H. injection H as <-.
    destruct (edit_existing_frame f wd1 qs' wd2 E) as [Hs _]. rewrite Hs. auto.
  - intro H. injection H as <-. auto.
Qed.

Lemma reachable_inv (wd : World) :
  reachable wd -> session_inv (session wd) /\ index_inv (session wd).
Proof.
  induction 1 as [qs rs|env reset p wd wd' Hreach IH Hvalid Hrun|qs wd Hreach IH].
  - split.
    + unfold session_inv. simpl. split; [reflexivity|]. split; [constructor|intros x []].
    + intro H. now elim H.
  - destruct IH as [Hinv Hidx]. exact (main_keeps_inv env reset p wd wd' Hvalid Hinv Hidx Hrun).
  - exact IH.
Qed.

(** C2. In every world the application reaches, by runs of the script with
    any page, widget values and buttons, the reset of the sidebar included,
    the score is the number of recorded submissions whose [correct] flag is
    set, and there are at most as many submissions as selected questions:
    as many as ["last_pool"] has ids, which after a run of the quiz page is
    the list of ids of the run's selected questions. *)
Theorem session_invariant (wd : World) :
  reachable wd ->
  get (score (session wd)) 0 = count_correct (get (answers (session wd)) []) /\
  len (get (answers (session wd)) []) <= len (get (last_pool (session wd)) []) /\
  (forall (env : Env) (w : QuizWidgets) (wd' : World),
     valid_input env (TakeQuiz w) wd ->
     filter_pool (w_category w) (questions_file wd) <> [] ->
     take_quiz env w wd = Ok wd' ->
     let selected :=
       select_questions env w (filter_pool (w_category w) (questions_file wd)) in
     get (score (session wd')) 0 = count_correct (get (answers (session wd')) []) /\
     len (get (answers (session wd')) []) <= len selected).
Proof.
  intro Hreach. destruct (reachable_inv wd Hreach) as [Hinv Hidx].
  split; [apply Hinv|]. split; [apply session_inv_bound, Hinv|].
  intros env w wd' Hvalid Hpool Hrun selected.
  destruct (take_quiz_keeps_inv env w wd wd' Hvalid Hinv Hidx Hrun)
    as (Hinv2 & _ & Hlp).
  split; [apply Hinv2|].
  pose proof (session_inv_bound _ Hinv2) as Hb.
  rewrite (Hlp Hpool) in Hb. simpl in Hb. unfold len in *.
  rewrite length_map in Hb. exact Hb.
Qed.

Lemma session_invariant_witness :
  reachable answered_world /\
  get (score (session answered_world)) 0 =
    count_correct (get (answers (session answered_world)) []).
Proof.
  assert (H : reachable answered_world).
  { apply (reach_run plain_env false (TakeQuiz (press_submit (at_rest "Paris")))
                     fresh_world answered_world).
    - apply reach_start.
    - change (1 <= 3 <= Z.min 20 3 /\ forall l : list Question, Permutation l l).
      split; [lia|]. intro l. apply Permutation_refl.
    - reflexivity. }
  split; [exact H|]. apply (session_invariant answered_world H).
Defined.

Example answered_world_session :
  session answered_world =
    mkSession (Some true) (Some [1; 2; 3]) (Some 0) (Some 1)
              (Some [(1, "Paris", true)]%string) (Some "2024-01-01T00:00:00"%string).
Proof. reflexivity. Qed.

(* ------------------------------------------------------------------ *)
(** ** The scenarios of the specification *)

(** The three questions answered right, in the order of the bank. *)
Example all_correct :
  exists wd,
    runs plain_env
         [press_submit (at_rest "Paris"); press_next (at_rest "Paris");
          press_submit (at_rest "56"); press_next (at_rest "56");
          press_submit (at_rest "H2O"); press_finish (at_rest "H2O")]
         fresh_world = Ok wd /\
    last_pool (session wd) = Some (map id default_questions) /\
    map (fun r => (r_score r, r_total r, r_pct r, r_grade r)) (results_file wd)
      = [(3, 3, PyFloat (double_of_int 100), "A"%string)].
Proof. eexists. split; [vm_compute; reflexivity|]. split; reflexivity. Qed.

(** "London", "49" and "H2O": one of three, grade "D"; the stored
    percentage is the double 33.33333333333333. *)
Example one_correct :
  exists wd,
    runs plain_env
         [press_submit (at_rest "London"); press_next (at_rest "London");
          press_submit (at_rest "49"); press_next (at_rest "49");
          press_submit (at_rest "H2O"); press_finish (at_rest "H2O")]
         fresh_world = Ok wd /\
    map (fun r => (r_score r, r_total r, r_pct r, r_grade r)) (results_file wd)
      = [(1, 3, PyFloat (S754_finite false 4691249611844266 (-47)), "D"%string)].
Proof. eexists. split; [vm_compute; reflexivity|]. reflexivity. Qed.

(* ------------------------------------------------------------------ *)
(** ** The categories *)

Lemma insert_sorted_in (c x : string) (l : list string) :
  In x (insert_sorted c l) <-> x = c \/ In x l.
Proof.
  induction l as [|y l IH]; simpl.
  - split; [intros [H|[]]; auto|intros [H|[]]; auto].
  - destruct (String.leb c y); simpl.
    + split; [intros [H|H]; auto|intros [H|H]; auto].
    + rewrite IH. split.
      * intros [H|[H|H]]; auto.
      * intros [H|[H|H]]; auto.
Qed.

Lemma py_sorted_in (x : string) (l : list string) : In x (py_sorted l) <-> In x l.
Proof.
  induction l as [|y l IH]; simpl; [reflexivity|].
  rewrite insert_sorted_in, IH. split; intros [H|H]; auto.
Qed.

Lemma insert_sorted_nodup (c : string) (l : list string) :
  NoDup l -> ~ In c l -> NoDup (insert_sorted c l).
Proof.
  induction l as [|y l IH]; simpl; intros Hnd Hc.
  - constructor; [intros []|constructor].
  - destruct (String.leb c y).
    + constructor; [exact Hc|exact Hnd].
    + inversion Hnd as [|y' l' Hy Hl]; subst. constructor.
      * rewrite insert_sorted_in. intros [H|H]; [|contradiction].
        apply Hc. left. exact H.
      * apply IH; [exact Hl|]. intro H. apply Hc. now right.
Qed.

Lemma py_sorted_nodup (l : list string) : NoDup l -> NoDup (py_sorted l).
Proof.
  induction l as [|y l IH]; simpl; intro Hnd; [constructor|].
  inversion Hnd as [|y' l' Hy Hl]; subst.
  apply insert_sorted_nodup; [now apply IH|].
  now rewrite py_sorted_in.
Qed.

Lemma insert_sorted_hdrel (c a : string) (l : list string) :
  str_le a c -> HdRel str_le a l -> HdRel str_le a (insert_sorted c l).
Proof.
  intros Hac Hl. destruct l as [|y l]; simpl.
  - now constructor.
  - destruct (String.leb c y); constructor; [exact Hac|].
    now inversion Hl.
Qed.

Lemma insert_sorted_sorted (c : string) (l : list string) :
  Sorted str_le l -> Sorted str_le (insert_sorted c l).
Proof.
  induction l as [|y l IH]; simpl; intro Hs.
  - repeat constructor.
  - destruct (String.leb c y) eqn:E.
    + constructor; [exact Hs|]. constructor. exact E.
    + inversion Hs as [|y' l' Hl Hhd]; subst.
      constructor; [now apply IH|].
      apply insert_sorted_hdrel; [|exact Hhd].
      destruct (String.leb_total c y) as [H|H]; [congruence|exact H].
Qed.

Lemma py_sorted_sorted (l : list string) : Sorted str_le (py_sorted l).
Proof.
  induction l as [|y l IH]; simpl; [constructor|].
  now apply insert_sorted_sorted.
Qed.

Lemma get_categories_in (c : string) (qs : list Question) :
  In c (get_categories qs) <-> exists q, In q qs /\ category q = c.
Proof.
  unfold get_categories. rewrite py_sorted_in, nodup_In, in_map_iff.
  split; intros [q [H1 H2]]; exists q; auto.
Qed.

(** X1. [get_categories] lists exactly the categories that some question of
    the bank has, each once, in ascending order. *)
Theorem get_categories_sorted_set (qs : list Question) :
  Sorted str_le (get_categories qs) /\
  NoDup (get_categories qs) /\
  forall c : string,
    In c (get_categories qs) <-> exists q, In q qs /\ category q = c.
Proof.
  unfold get_categories. split; [apply py_sorted_sorted|].
  split; [apply py_sorted_nodup, NoDup_nodup|].
  intro c. apply (get_categories_in c qs).
Qed.

Example get_categories_default :
  get_categories default_questions = ["General Knowledge"; "Math"; "Science"]%string.
Proof. reflexivity. Qed.

(** X2. The quiz page's select box offers "All" and the categories of the
    bank: on a bank that is not empty each of them has a pool that is not
    empty, so the code after the slider goes on to the session and the
    warning of line 132 is never shown.  The page itself gets there on a
    bank of two questions or more; on a bank of one question the slider of
    line 122 raises. *)
Theorem offered_category_has_pool (env : Env) (w : QuizWidgets) (wd : World) :
  questions_file wd <> [] ->
  In (w_category w) (category_options (questions_file wd)) ->
  filter_pool (w_category w) (questions_file wd) <> [] /\
  quiz_from_pool env w wd =
    run_session env w
      (select_questions env w (filter_pool (w_category w) (questions_file wd))) wd /\
  (1 < len (questions_file wd) ->
   take_quiz env w wd =
     run_session env w
       (select_questions env w (filter_pool (w_category w) (questions_file wd))) wd) /\
  (len (questions_file wd) = 1 ->
   take_quiz env w wd = Raise StreamlitAPIException).
Proof.
  intros Hqs Hcat.
  assert (Hpool : filter_pool (w_category w) (questions_file wd) <> []).
  { unfold filter_pool. destruct (String.eqb (w_category w) "All") eqn:E; [exact Hqs|].
    destruct Hcat as [Hall|Hcat].
    - rewrite <- Hall in E. now rewrite String.eqb_refl in E.
    - apply get_categories_in in Hcat.
      destruct Hcat as [q [Hq Hc]].
      intro Hempty.
      assert (Hin : In q (filter (fun q0 => String.eqb (category q0) (w_category w))
                                 (questions_file wd))).
      { apply filter_In. split; [exact Hq|]. now apply String.eqb_eq. }
      rewrite Hempty in Hin. destruct Hin. }
  assert (Hfrom : quiz_from_pool env w wd =
                  run_session env w
                    (select_questions env w
                       (filter_pool (w_category w) (questions_file wd))) wd).
  { unfold quiz_from_pool. cbv zeta.
    pose proof Hpool as Hp. apply is_empty_false in Hp. rewrite Hp. reflexivity. }
  split; [exact Hpool|]. split; [exact Hfrom|]. split.
  - intro H. rewrite (take_quiz_from_pool env w wd H). exact Hfrom.
  - apply take_quiz_one_question.
Qed.

Lemma offered_category_has_pool_witness :
  filter_pool (w_category math_widgets) (questions_file fresh_world) <> [] /\
  take_quiz plain_env math_widgets fresh_world =
    run_session plain_env math_widgets
      (select_questions plain_env math_widgets
         (filter_pool (w_category math_widgets) (questions_file fresh_world)))
      fresh_world.
Proof.
  destruct (offered_category_has_pool plain_env math_widgets fresh_world)
    as (H1 & _ & H3 & _).
  - discriminate.
  - simpl. right. right. left. reflexivity.
  - split; [exact H1|]. apply H3. reflexivity.
Defined.

(* ------------------------------------------------------------------ *)
(** ** More on [calculate_grade] *)

Lemma breakpoint_test (score total b : Z) :
  0 < total ->
  Qle_bool (inject_Z b) (inject_Z score / inject_Z total * 100) =
    (b * total <=? 100 * score).
Proof.
  intro Ht.
  destruct (b * total <=? 100 * score) eqn:E.
  - apply Qle_bool_iff, pct_ge_iff; [exact Ht|]. now apply Z.leb_le.
  - apply Z.leb_gt in E.
    destruct (Qle_bool _ _) eqn:E'; [|reflexivity].
    apply Qle_bool_iff, pct_ge_iff in E'; [lia|exact Ht].
Qed.

Lemma grade_by_integers (score total : Z) :
  0 < total -> snd (exact_grade score total) = grade_by_products score total.
Proof.
  intro Ht. unfold exact_grade, grade_by_products.
  assert (Hgt : (total >? 0) = true) by (apply Z.gtb_lt; exact Ht).
  rewrite Hgt. cbn [snd].
  change 85%Q with (inject_Z 85). change 70%Q with (inject_Z 70).
  change 50%Q with (inject_Z 50).
  rewrite !breakpoint_test by exact Ht. reflexivity.
Qed.

(** For a score between 0 and a positive total of at most 100, the
    rounding of the division and of the product moves the percentage
    across none of the bounds 85, 70 and 50. *)
Lemma calculate_grade_by_products (score total : Z) :
  0 < total -> 0 <= score <= total -> total <= 100 ->
  exists pct : Number,
    calculate_grade score total = Ok (pct, grade_by_products score total).
Proof.
  intros Ht Hs Hle.
  destruct (calculate_grade_in_range score total Hs Hle) as (pct & x & E & _).
  exists pct. rewrite E, (grade_by_integers score total Ht). reflexivity.
Qed.

Lemma calculate_grade_no_total (score total : Z) :
  total <= 0 -> calculate_grade score total = Ok (PyInt 0, "D"%string).
Proof.
  intro Ht. unfold calculate_grade.
  assert (Hgt : (total >? 0) = false).
  { destruct (total >? 0) eqn:E; [|reflexivity]. apply Z.gtb_lt in E. lia. }
  rewrite Hgt. reflexivity.
Qed.

(** X3. For a score between 0 and a positive total of at most 100 the
    grade that [calculate_grade] returns, read from a rounded double, is
    the one that integer products give without a division: "A" when
    [85 * total <= 100 * score], else "B" from [70 * total], else "C" from
    [50 * total], else "D".  For a total of 0 or less the result is the
    double 0 and "D", whatever the score. *)
Theorem grade_by_cross_multiplication (score total : Z) :
  (0 < total -> 0 <= score <= total -> total <= 100 ->
   exists pct : Number,
     calculate_grade score total =
       Ok (pct,
           if 85 * total <=? 100 * score then "A"%string
           else if 70 * total <=? 100 * score then "B"%string
           else if 50 * total <=? 100 * score then "C"%string
           else "D"%string)) /\
  (total <= 0 -> calculate_grade score total = Ok (PyInt 0, "D"%string)).
Proof.
  split; [apply calculate_grade_by_products|apply calculate_grade_no_total].
Qed.

Lemma grade_by_cross_multiplication_witness :
  (exists pct : Number, calculate_grade 7 10 = Ok (pct, "B"%string)) /\
  calculate_grade 4 (-2) = Ok (PyInt 0, "D"%string).
Proof.
  split.
  - apply (proj1 (grade_by_cross_multiplication 7 10)); lia.
  - apply (proj2 (grade_by_cross_multiplication 4 (-2))). lia.
Defined.

(** X4. For a fixed positive total of at most 100 the grade never gets
    worse when the score grows from 0 up to the total: both calls return
    and the later grade ranks at least as high. *)
Theorem grade_monotone (score1 score2 total : Z) :
  0 < total -> total <= 100 -> 0 <= score1 -> score1 <= score2 -> score2 <= total ->
  exists (pct1 pct2 : Number) (grade1 grade2 : string),
    calculate_grade score1 total = Ok (pct1, grade1) /\
    calculate_grade score2 total = Ok (pct2, grade2) /\
    grade_rank grade1 <= grade_rank grade2.
Proof.
  intros Ht Hle H0 Hs H2.
  destruct (calculate_grade_by_products score1 total Ht) as [pct1 E1]; [lia|exact Hle|].
  destruct (calculate_grade_by_products score2 total Ht) as [pct2 E2]; [lia|exact Hle|].
  exists pct1, pct2, (grade_by_products score1 total), (grade_by_products score2 total).
  split; [exact E1|]. split; [exact E2|].
  unfold grade_by_products.
  destruct (85 * total <=? 100 * score1) eqn:A1;
  destruct (70 * total <=? 100 * score1) eqn:B1;
  destruct (50 * total <=? 100 * score1) eqn:C1;
  destruct (85 * total <=? 100 * score2) eqn:A2;
  destruct (70 * total <=? 100 * score2) eqn:B2;
  destruct (50 * total <=? 100 * score2) eqn:C2;
  try (vm_compute; discriminate);
  repeat match goal with
         | H : (_ <=? _) = true |- _ => apply Z.leb_le in H
         | H : (_ <=? _) = false |- _ => apply Z.leb_gt in H
         end; lia.
Qed.

Lemma grade_monotone_witness :
  exists (pct1 pct2 : Number) (grade1 grade2 : string),
    calculate_grade 13 20 = Ok (pct1, grade1) /\
    calculate_grade 17 20 = Ok (pct2, grade2) /\
    grade_rank grade1 <= grade_rank grade2.
Proof. apply (grade_monotone 13 17 20); lia. Defined.

(** X22. The errors of [calculate_grade]: it never divides by zero; the
    one exception it can raise is the [OverflowError] of the division of
    line 89, on a positive total, as for 10^400 of 1.  When it returns,
    the grade is the one of the percentage it returns, which is the [int]
    0 on a total of 0 or less and a [float] otherwise. *)
Theorem calculate_grade_errors (score total : Z) :
  calculate_grade score total <> Raise ZeroDivisionError /\
  (forall e : Exn,
     calculate_grade score total = Raise e -> e = OverflowError /\ 0 < total) /\
  (forall (pct : Number) (grade : string),
     calculate_grade score total = Ok (pct, grade) ->
     grade = grade_of pct /\
     (total <= 0 -> pct = PyInt 0 /\ grade = "D"%string) /\
     (0 < total -> exists d : double, pct = PyFloat d)) /\
  calculate_grade (10 ^ 400) 1 = Raise OverflowError.
Proof.
  pose proof (calculate_grade_shape score total) as H.
  split; [|split; [|split]].
  - intro E. rewrite E in H. destruct H as [H _]. discriminate H.
  - intros e E. rewrite E in H. exact H.
  - intros pct grade E. rewrite E in H. destruct H as (Hg & Hz & Hp).
    split; [exact Hg|]. split; [|exact Hp].
    intro Ht. specialize (Hz Ht). subst. split; reflexivity.
  - vm_compute. reflexivity.
Qed.

Lemma calculate_grade_errors_witness :
  (exists d : double, PyFloat (double_of_int 50) = PyFloat d) /\
  (-1 <= 0 -> PyInt 0 = PyInt 0 /\ "D"%string = "D"%string).
Proof.
  destruct (calculate_grade_errors 1 2) as (_ & _ & H & _).
  destruct (calculate_grade_errors 5 (-1)) as (_ & _ & H' & _).
  split.
  - apply (H (PyFloat (double_of_int 50)) "C"%string).
    + vm_compute. reflexivity.
    + lia.
  - apply (H' (PyInt 0) "D"%string). reflexivity.
Defined.

(* ------------------------------------------------------------------ *)
(** ** What a run of the quiz page writes *)

(** X5. A run of the quiz page never writes the question bank, and it
    leaves the results as they are or, only with Finish Quiz pressed,
    appends one record to them. *)
Theorem quiz_page_files (env : Env) (w : QuizWidgets) (wd wd' : World) :
  take_quiz env w wd = Ok wd' ->
  questions_file wd' = questions_file wd /\
  (results_file wd' = results_file wd \/
   w_finish w = true /\ exists r, results_file wd' = results_file wd ++ [r]).
Proof.
  unfold take_quiz.
  destruct (is_empty (questions_file wd)).
  { intro H. injection H as <-. split; [reflexivity|now left]. }
  destruct (st_slider 1 (Z.min 20 (len (questions_file wd))) (w_num_questions w));
    cbn [bind]; [|discriminate].
  unfold quiz_from_pool.
  destruct (is_empty (filter_pool (w_category w) (questions_file wd))).
  { intro H. injection H as <-. split; [reflexivity|now left]. }
  set (selected := select_questions env w _). unfold run_session.
  set (wd0 := with_session (init_session env selected (session wd)) wd).
  assert (F0 : questions_file wd0 = questions_file wd /\
               results_file wd0 = results_file wd) by (split; reflexivity).
  destruct (py_index selected _) as [q|e]; cbn [bind]; [|discriminate].
  destruct (if w_previous w then advance Previous selected _ wd0 else Ok wd0)
    as [wd1|e] eqn:E1; cbn [bind]; [|discriminate].
  assert (F1 : questions_file wd1 = questions_file wd /\
               results_file wd1 = results_file wd).
  { destruct (w_previous w).
    - destruct (advance_files _ _ _ _ _ E1) as [Fq Fr]. rewrite Fq, Fr. exact F0.
    - injection E1 as <-. exact F0. }
  set (wd2 := if w_submit w then submit_answer q (w_choice w) wd1 else wd1).
  assert (F2 : questions_file wd2 = questions_file wd /\
               results_file wd2 = results_file wd).
  { subst wd2. destruct (w_submit w); [|exact F1].
    destruct (submit_answer_files q (w_choice w) wd1) as [Fq Fr].
    rewrite Fq, Fr. exact F1. }
  destruct (if w_next w then advance Next selected _ wd2 else Ok wd2)
    as [wd3|e] eqn:E3; cbn [bind]; [|discriminate].
  assert (F3 : questions_file wd3 = questions_file wd /\
               results_file wd3 = results_file wd).
  { destruct (w_next w).
    - destruct (advance_files _ _ _ _ _ E3) as [Fq Fr]. rewrite Fq, Fr. exact F2.
    - injection E3 as <-. exact F2. }
  destruct F3 as [Fq3 Fr3].
  destruct (_ =? _); [destruct (w_finish w) eqn:Ef|]; intro H.
  - destruct (finish_marks_inactive env w selected wd3 wd' H)
      as (_ & _ & _ & _ & _ & _ & Hq & r & Hr & _).
    rewrite Hq, Hr, Fq3, Fr3. split; [reflexivity|]. right. eauto.
  - injection H as <-. split; [exact Fq3|now left].
  - injection H as <-. split; [exact Fq3|now left].
Qed.

Lemma quiz_page_files_witness :
  questions_file answered_world = questions_file fresh_world /\
  (results_file answered_world = results_file fresh_world \/
   w_finish (press_submit (at_rest "Paris")) = true /\
   exists r, results_file answered_world = results_file fresh_world ++ [r]).
Proof.
  apply (quiz_page_files plain_env (press_submit (at_rest "Paris")) fresh_world
                         answered_world).
  reflexivity.
Defined.

Lemma select_questions_len (env : Env) (w : QuizWidgets) (pool : list Question) :
  0 <= w_num_questions w ->
  len (select_questions env w pool) <= w_num_questions w.
Proof.
  intro Hn. unfold select_questions. rewrite py_slice_to_len by exact Hn. lia.
Qed.

(** X6. In a world the application reaches, a run of the quiz page that
    appends a record [r] to the results appends one that is consistent:
    its total is the number of selected questions, between 1 and 20, its
    score is the number of correct submissions among its answers, between 0
    and the total, and its percentage and grade are those of
    [calculate_grade] for that score and total. *)
Theorem finish_record_consistent (env : Env) (w : QuizWidgets) (wd wd' : World)
        (r : ResultRecord) :
  reachable wd ->
  valid_input env (TakeQuiz w) wd ->
  take_quiz env w wd = Ok wd' ->
  results_file wd' = results_file wd ++ [r] ->
  r_total r =
    len (select_questions env w (filter_pool (w_category w) (questions_file wd))) /\
  1 <= r_total r <= 20 /\
  r_score r = count_correct (r_answers r) /\
  0 <= r_score r <= r_total r /\
  Ok (r_pct r, r_grade r) = calculate_grade (r_score r) (r_total r).
Proof.
  intros Hreach Hvalid Hrun Hres.
  destruct (reachable_inv wd Hreach) as [Hinv Hidx].
  destruct Hvalid as [Hn Hperm].
  unfold take_quiz in Hrun.
  destruct (is_empty (questions_file wd)).
  { injection Hrun as <-. simpl in Hres. now apply snoc_not_self in Hres. }
  destruct (st_slider 1 (Z.min 20 (len (questions_file wd))) (w_num_questions w));
    cbn [bind] in Hrun; [|discriminate].
  unfold quiz_from_pool in Hrun.
  destruct (is_empty (filter_pool (w_category w) (questions_file wd))) eqn:Epool.
  { injection Hrun as <-. simpl in Hres. now apply snoc_not_self in Hres. }
  apply is_empty_false in Epool.
  set (selected := select_questions env w _) in *.
  assert (Hsel : selected <> [])
    by (apply select_questions_nonempty; [lia|exact Hperm|exact Epool]).
  destruct (run_session_stages env w selected wd Hsel Hinv Hidx)
    as (i & wd3 & R3 & _ & Fr3 & E).
  rewrite E in Hrun.
  destruct ((i =? len selected - 1) && w_finish w).
  2: { injection Hrun as <-. rewrite Fr3 in Hres. now apply snoc_not_self in Hres. }
  destruct (finish_marks_inactive env w selected wd3 wd' Hrun)
    as (_ & _ & _ & _ & _ & _ & _ & r0 & Hr0 & Hsc & Htot & Hans & Hgrade).
  rewrite Hr0, Fr3 in Hres. apply app_inj_tail in Hres. destruct Hres as [_ <-].
  destruct R3 as (Hinv3 & Hpool3 & _).
  pose proof (session_inv_bound _ Hinv3) as Hb.
  rewrite Hpool3 in Hb. simpl in Hb. unfold len in Hb. rewrite length_map in Hb.
  fold (len selected) in Hb. fold (len (get (answers (session wd3)) [])) in Hb.
  destruct Hinv3 as (Hscore & _).
  pose proof (count_correct_le (get (answers (session wd3)) [])) as Hc.
  pose proof (select_questions_len env w
                (filter_pool (w_category w) (questions_file wd))) as Hlen.
  fold selected in Hlen.
  assert (Hpos : 1 <= len selected).
  { destruct selected; [contradiction|]. unfold len. cbn [List.length]. lia. }
  rewrite Htot, Hsc, Hans.
  split; [reflexivity|]. split; [lia|]. split; [exact Hscore|]. split; [lia|].
  rewrite <- Hsc, <- Htot. symmetry. exact Hgrade.
Qed.

Lemma finish_record_consistent_witness :
  r_total math_record = 1 /\
  1 <= r_total math_record <= 20 /\
  r_score math_record = count_correct (r_answers math_record) /\
  0 <= r_score math_record <= r_total math_record /\
  Ok (r_pct math_record, r_grade math_record) =
    calculate_grade (r_score math_record) (r_total math_record).
Proof.
  apply (finish_record_consistent plain_env math_finish fresh_world
                                  math_finished_world math_record).
  - apply reach_start.
  - change (1 <= 1 <= Z.min 20 3 /\ forall l : list Question, Permutation l l).
    split; [lia|]. intro l. apply Permutation_refl.
  - reflexivity.
  - reflexivity.
Defined.

(* ------------------------------------------------------------------ *)
(** ** Runs of the quiz page *)

(** From a session dictionary that satisfies the invariants, the quiz page
    on a bank of two questions or more, with widget values in their
    ranges, returns. *)
Lemma take_quiz_returns (env : Env) (w : QuizWidgets) (wd : World) :
  valid_input env (TakeQuiz w) wd ->
  session_inv (session wd) -> index_inv (session wd) ->
  1 < len (questions_file wd) ->
  exists wd', take_quiz env w wd = Ok wd'.
Proof.
  intros [Hn Hperm] Hinv Hidx Hlen.
  rewrite (take_quiz_from_pool env w wd Hlen). unfold quiz_from_pool. cbv zeta.
  destruct (is_empty (filter_pool (w_category w) (questions_file wd))) eqn:Epool;
    [eauto|].
  apply is_empty_false in Epool.
  apply run_session_returns; [| |exact Hinv|exact Hidx].
  - apply select_questions_nonempty; [lia|exact Hperm|exact Epool].
  - pose proof (select_questions_len env w
                  (filter_pool (w_category w) (questions_file wd))). lia.
Qed.

(** X7. From a world the application reaches, a run of the script on the
    quiz page with widget values in their ranges, with or without the
    sidebar's reset, raises no exception when the bank has two questions or
    more: the index read at line 147 is always a position of the
    selection, the key ["current_q_index"] is there when a navigation
    button changes it, and the division of line 89 does not overflow.  On
    a bank of exactly one question the run raises at the slider of line
    122, whose bounds are then both 1. *)
Theorem quiz_page_total (env : Env) (reset : bool) (w : QuizWidgets) (wd : World) :
  reachable wd -> valid_input env (TakeQuiz w) wd ->
  (len (questions_file wd) <> 1 ->
   exists wd', main env reset (TakeQuiz w) wd = Ok wd' /\ reachable wd') /\
  (len (questions_file wd) = 1 ->
   main env reset (TakeQuiz w) wd = Raise StreamlitAPIException).
Proof.
  intros Hreach Hvalid. destruct (reachable_inv wd Hreach) as [Hinv Hidx].
  unfold main.
  set (wd0 := {| session := session wd; questions_file := questions_file wd;
                 results_file := results_file wd; page := [] |}).
  set (wd1 := if reset
              then say SessionReset
                     (with_session (quiz_session_reset (session wd0)) wd0)
              else wd0).
  assert (H1 : session_inv (session wd1) /\ index_inv (session wd1) /\
               questions_file wd1 = questions_file wd).
  { subst wd1. destruct reset; simpl.
    - split; [apply session_inv_reset|].
      split; [now apply index_inv_reset|reflexivity].
    - auto. }
  destruct H1 as (Hinv1 & Hidx1 & Hqf).
  assert (Hvalid1 : valid_input env (TakeQuiz w) wd1).
  { unfold valid_input in *. now rewrite Hqf. }
  split.
  - intro Hlen.
    assert (Hlen1 : 1 < len (questions_file wd1)).
    { rewrite Hqf. destruct Hvalid as [Hn _]. lia. }
    destruct (take_quiz_returns env w wd1 Hvalid1 Hinv1 Hidx1 Hlen1) as [wd' E].
    exists wd'. split; [exact E|].
    apply (reach_run env reset (TakeQuiz w) wd wd' Hreach Hvalid).
    unfold main. exact E.
  - intro Hlen. apply take_quiz_one_question. now rewrite Hqf.
Qed.

Lemma quiz_page_total_witness :
  exists wd', main plain_env true (TakeQuiz (press_next (at_rest "Paris"))) answered_world
              = Ok wd' /\ reachable wd'.
Proof.
  assert (Hv : forall wd, questions_file wd = default_questions ->
                          valid_input plain_env (TakeQuiz (press_next (at_rest "Paris"))) wd).
  { intros wd Hq. unfold valid_input. rewrite Hq.
    change (1 <= 3 <= Z.min 20 3 /\ forall l : list Question, Permutation l l).
    split; [lia|]. intro l. apply Permutation_refl. }
  apply (quiz_page_total plain_env true (press_next (at_rest "Paris")) answered_world).
  - apply (reach_run plain_env false (TakeQuiz (press_submit (at_rest "Paris")))
                     fresh_world answered_world).
    + apply reach_start.
    + change (1 <= 3 <= Z.min 20 3 /\ forall l : list Question, Permutation l l).
      split; [lia|]. intro l. apply Permutation_refl.
    + reflexivity.
  - apply Hv. reflexivity.
  - discriminate.
Defined.

(** X8. In every world the application reaches, once a session is started
    the index is a position of the selection: it lies between 0 and the
    number of ids in ["last_pool"], which is not empty. *)
Theorem index_always_in_range (wd : World) :
  reachable wd ->
  quiz_running (session wd) <> None ->
  exists i, current_q_index (session wd) = Some i /\
            0 <= i < len (get (last_pool (session wd)) []).
Proof.
  intros Hreach Hrun. destruct (reachable_inv wd Hreach) as [_ Hidx].
  exact (Hidx Hrun).
Qed.

Lemma index_always_in_range_witness :
  exists i, current_q_index (session answered_world) = Some i /\
            0 <= i < len (get (last_pool (session answered_world)) []).
Proof.
  apply (index_always_in_range answered_world).
  - apply (reach_run plain_env false (TakeQuiz (press_submit (at_rest "Paris")))
                     fresh_world answered_world).
    + apply reach_start.
    + change (1 <= 3 <= Z.min 20 3 /\ forall l : list Question, Permutation l l).
      split; [lia|]. intro l. apply Permutation_refl.
    + reflexivity.
  - discriminate.
Defined.

Lemma with_session_twice (s s' : SessionState) (wd : World) :
  with_session s (with_session s' wd) = with_session s wd.
Proof. reflexivity. Qed.

(** X9. When the ids of the selection differ from ["last_pool"], or no
    session was started, the run does not depend on the session dictionary
    it finds: it goes as in a fresh browser session, so the index, score
    and submissions recorded before are discarded before the buttons are
    served. *)
Theorem selection_change_discards_session (env : Env) (w : QuizWidgets)
        (selected : list Question) (wd : World) :
  in_progress (session wd) (map id selected) = false ->
  run_session env w selected wd =
  run_session env w selected (with_session empty_session wd).
Proof.
  intro H. unfold run_session.
  cbn [session with_session].
  rewrite (init_session_started env selected (session wd) H).
  rewrite (init_session_started env selected empty_session eq_refl).
  reflexivity.
Qed.

Lemma selection_change_discards_session_witness :
  run_session plain_env math_widgets
              (select_questions plain_env math_widgets
                 (filter_pool "Math" default_questions)) answered_world =
  run_session plain_env math_widgets
              (select_questions plain_env math_widgets
                 (filter_pool "Math" default_questions))
              (with_session empty_session answered_world).
Proof.
  apply (selection_change_discards_session plain_env math_widgets
           (select_questions plain_env math_widgets
              (filter_pool "Math" default_questions)) answered_world).
  reflexivity.
Defined.

(** X10. A run without a click on a session in progress changes nothing:
    neither the session dictionary nor the files nor the page, whatever the
    radio button shows. *)
Theorem rerun_without_click (env : Env) (w : QuizWidgets) (selected : list Question)
        (wd : World) (i : Z) :
  in_progress (session wd) (map id selected) = true ->
  current_q_index (session wd) = Some i ->
  0 <= i < len selected ->
  no_click w ->
  run_session env w selected wd = Ok wd.
Proof.
  intros Hprog Hidx Hi (Hp & Hs & Hn & Hf).
  destruct (py_index_in_range selected i Hi) as [q [Hq _]].
  rewrite (run_session_in_progress env w selected wd i q Hprog Hidx Hq).
  rewrite Hp, Hs, Hn, Hf. cbn [bind].
  now destruct (i =? len selected - 1).
Qed.

Lemma rerun_without_click_witness :
  run_session plain_env (at_rest "London") default_questions answered_world =
    Ok answered_world.
Proof.
  apply (rerun_without_click plain_env (at_rest "London") default_questions
                             answered_world 0).
  - reflexivity.
  - reflexivity.
  - change (0 <= 0 < 3). lia.
  - repeat split.
Defined.

(* ------------------------------------------------------------------ *)
(** ** The text of the choices *)

Lemma append_empty_r (s : string) : (s ++ EmptyString)%string = s.
Proof. induction s as [|c s IH]; simpl; [reflexivity|now rewrite IH]. Qed.

Lemma append_assoc (a b c : string) : ((a ++ b) ++ c = a ++ (b ++ c))%string.
Proof. induction a as [|x a IH]; simpl; [reflexivity|now rewrite IH]. Qed.

Lemma chars_append (a b : string) : chars (a ++ b) = chars a ++ chars b.
Proof. unfold chars. induction a as [|x a IH]; simpl; [reflexivity|now rewrite IH]. Qed.

Lemma chars_lstrip (s : string) : incl (chars (lstrip s)) (chars s).
Proof.
  induction s as [|c s IH]; simpl; [apply incl_refl|].
  destruct (is_space c); [|apply incl_refl].
  intros x Hx. right. now apply IH.
Qed.

Lemma chars_rstrip (s : string) : incl (chars (rstrip s)) (chars s).
Proof.
  induction s as [|c s IH]; simpl; [apply incl_refl|].
  destruct (is_space c && str_empty (rstrip s)).
  - intros x [].
  - intros x [Hx|Hx]; [now left|right; now apply IH].
Qed.

Lemma chars_strip (s : string) : incl (chars (strip s)) (chars s).
Proof.
  unfold strip. eapply incl_tran; [apply chars_rstrip|apply chars_lstrip].
Qed.

Lemma rstrip_idempotent (s : string) : rstrip (rstrip s) = rstrip s.
Proof.
  induction s as [|c s IH]; simpl; [reflexivity|].
  destruct (is_space c && str_empty (rstrip s)) eqn:E; [reflexivity|].
  simpl. rewrite IH, E. reflexivity.
Qed.

Lemma lstrip_head (s : string) :
  lstrip s = EmptyString \/
  exists c r, lstrip s = String c r /\ is_space c = false.
Proof.
  induction s as [|c s IH]; simpl; [now left|].
  destruct (is_space c) eqn:E; [exact IH|]. right. eauto.
Qed.

(** Stripping twice is stripping once. *)
Lemma strip_idempotent (s : string) : strip (strip s) = strip s.
Proof.
  unfold strip. destruct (lstrip_head s) as [H|(c & r & H & Hc)]; rewrite H.
  - reflexivity.
  - assert (E1 : rstrip (String c r) = String c (rstrip r))
      by (simpl; rewrite Hc; reflexivity).
    rewrite E1.
    assert (E2 : lstrip (String c (rstrip r)) = String c (rstrip r))
      by (simpl; rewrite Hc; reflexivity).
    rewrite E2. simpl. rewrite Hc. simpl. now rewrite rstrip_idempotent.
Qed.

Lemma no_break_snoc (line : string) (c : ascii) :
  no_break line -> is_linebreak c = false ->
  no_break (line ++ String c EmptyString).
Proof.
  intros Hl Hc. unfold no_break. rewrite chars_append.
  apply Forall_app. split; [exact Hl|]. constructor; [exact Hc|constructor].
Qed.

(** The lines of [splitlines] hold no line boundary. *)
Lemma splitlines_from_no_break (n : nat) :
  forall (s line : string),
    (String.length s <= n)%nat -> no_break line ->
    Forall no_break (splitlines_from line s).
Proof.
  induction n as [|n IH]; intros s line Hlen Hline.
  - destruct s; [|simpl in Hlen; lia]. simpl.
    destruct (str_empty line); constructor; [exact Hline|constructor].
  - destruct s as [|c rest]; simpl.
    { destruct (str_empty line); constructor; [exact Hline|constructor]. }
    simpl in Hlen.
    assert (Hnil : no_break EmptyString) by constructor.
    destruct (is_linebreak c) eqn:Ec.
    + destruct rest as [|c' rest'].
      * constructor; [exact Hline|]. apply IH; [simpl; lia|exact Hnil].
      * destruct ((code c =? 13)%nat && (code c' =? 10)%nat);
          (constructor; [exact Hline|]); apply IH; try exact Hnil; simpl in *; lia.
    + apply IH; [lia|]. now apply no_break_snoc.
Qed.

Lemma splitlines_no_break (s : string) : Forall no_break (splitlines s).
Proof.
  apply (splitlines_from_no_break (String.length s)); [lia|constructor].
Qed.

Lemma parse_choices_all_clean (choices_raw : string) :
  Forall clean (parse_choices choices_raw).
Proof.
  unfold parse_choices. apply Forall_forall. intros x Hx.
  apply in_map_iff in Hx. destruct Hx as [c [<- Hc]].
  apply filter_In in Hc. destruct Hc as [Hc Hne].
  pose proof (splitlines_no_break choices_raw) as Hnb.
  rewrite Forall_forall in Hnb. specialize (Hnb c Hc).
  split; [|split].
  - intro E. rewrite E in Hne. discriminate.
  - apply strip_idempotent.
  - unfold no_break in *. rewrite Forall_forall in Hnb. apply Forall_forall.
    intros a Ha. apply Hnb. now apply chars_strip.
Qed.

(** Text without a line boundary is read into the current line. *)
Lemma splitlines_from_text (t : string) :
  forall (line rest : string),
    no_break t ->
    splitlines_from line (t ++ rest) = splitlines_from (line ++ t) rest.
Proof.
  induction t as [|c t IH]; intros line rest Hnb; simpl.
  - now rewrite append_empty_r.
  - inversion Hnb as [|c0 l0 Hc Ht]; subst. rewrite Hc.
    rewrite (IH _ _ Ht), append_assoc. reflexivity.
Qed.

Lemma concat_nonempty (x : string) (l : list string) :
  x <> EmptyString -> String.concat nl (x :: l) <> EmptyString.
Proof.
  intros Hx. destruct l as [|y l]; simpl; [exact Hx|].
  destruct x; [contradiction|discriminate].
Qed.

Lemma splitlines_from_line_feed (line : string) (c : ascii) (rest : string) :
  splitlines_from (EmptyString ++ line) (nl ++ String c rest) =
    line :: splitlines_from EmptyString (String c rest).
Proof. reflexivity. Qed.

Lemma splitlines_join (l : list string) :
  Forall clean l -> splitlines (String.concat nl l) = l.
Proof.
  unfold splitlines. induction l as [|x l IH]; intro Hall; [reflexivity|].
  inversion Hall as [|x0 l0 Hx Hl]; subst.
  destruct Hx as (Hne & _ & Hnb).
  destruct l as [|y l'].
  - simpl. rewrite <- (append_empty_r x) at 1.
    rewrite (splitlines_from_text x _ _ Hnb). simpl.
    destruct x; [contradiction|reflexivity].
  - change (String.concat nl (x :: y :: l'))
      with (x ++ (nl ++ String.concat nl (y :: l')))%string.
    rewrite (splitlines_from_text x _ _ Hnb).
    assert (Hy : y <> EmptyString) by (inversion Hl as [|? ? Hy' ?]; apply Hy').
    pose proof (concat_nonempty y l' Hy) as Hr.
    specialize (IH Hl).
    remember (String.concat nl (y :: l')) as R eqn:ER.
    destruct R as [|c' rest']; [contradiction|].
    rewrite (splitlines_from_line_feed x c' rest'), IH. reflexivity.
Qed.

Lemma parse_choices_join (l : list string) :
  Forall clean l -> parse_choices (String.concat nl l) = l.
Proof.
  intro Hall. unfold parse_choices. rewrite (splitlines_join l Hall).
  induction l as [|x l IH]; [reflexivity|].
  inversion Hall as [|x0 l0 Hx Hl]; subst.
  destruct Hx as (Hne & Hs & _). simpl. rewrite Hs.
  destruct x; [contradiction|]. simpl. rewrite Hs. f_equal. now apply IH.
Qed.

(** X11. Every choice that the editor reads from the text area is clean:
    it is not empty, has no white space at either end and holds no line
    boundary; reading the choices joined by line feeds gives them back. *)
Theorem parse_choices_clean (choices_raw : string) :
  Forall clean (parse_choices choices_raw) /\
  parse_choices (String.concat nl (parse_choices choices_raw)) =
    parse_choices choices_raw.
Proof.
  split; [apply parse_choices_all_clean|].
  apply parse_choices_join, parse_choices_all_clean.
Qed.

(** X12. The text that the edit form shows for the choices of a question,
    the choices joined by line feeds, is read back as the same list when
    the choices are clean. *)
Theorem choices_round_trip (l : list string) :
  Forall clean l -> parse_choices (String.concat nl l) = l.
Proof. apply parse_choices_join. Qed.

Lemma choices_round_trip_witness :
  parse_choices (String.concat nl ["Paris"; "New York"]%string) =
    ["Paris"; "New York"]%string.
Proof.
  apply (choices_round_trip ["Paris"; "New York"]%string).
  repeat constructor; discriminate.
Defined.

(* ------------------------------------------------------------------ *)
(** ** The modes of the editor *)

Lemma generate_id_above (qs : list Question) (q : Question) :
  In q qs -> id q < generate_id qs.
Proof.
  destruct qs as [|q0 rest]; [intros []|].
  intros [<-|Hin]; simpl.
  - pose proof (py_max_ge_init (map id rest) (id q0)). lia.
  - pose proof (py_max_ge_elem (map id rest) (id q0) (id q) (in_map id _ _ Hin)). lia.
Qed.

Lemma generate_id_unused (qs : list Question) : ~ In (generate_id qs) (map id qs).
Proof.
  intro H. apply in_map_iff in H. destruct H as [q [Hq Hin]].
  pose proof (generate_id_above qs q Hin). lia.
Qed.

Lemma update_in_place_split (qid : Z) (f : EditForm) (ch : list string)
      (qs : list Question) (q : Question) :
  find (fun q' => id q' =? qid) qs = Some q ->
  exists pre post,
    qs = pre ++ q :: post /\
    Forall (fun p => id p <> qid) pre /\
    update_in_place qid f ch qs =
      pre ++ mkQuestion (id q) (f_category f) (f_question f) ch (f_answer f) :: post.
Proof.
  induction qs as [|q0 qs IH]; simpl; [discriminate|].
  destruct (id q0 =? qid) eqn:E.
  - intro H. injection H as <-. exists [], qs. repeat split. constructor.
  - intro H. destruct (IH H) as (pre & post & Hqs & Hpre & Hup).
    exists (q0 :: pre), post. split; [simpl; now rewrite Hqs|].
    split; [constructor; [now apply Z.eqb_neq|exact Hpre]|].
    simpl. now rewrite Hup.
Qed.

Lemma update_in_place_ids (qid : Z) (f : EditForm) (ch : list string)
      (qs : list Question) :
  map id (update_in_place qid f ch qs) = map id qs.
Proof.
  induction qs as [|q0 qs IH]; simpl; [reflexivity|].
  destruct (id q0 =? qid); simpl; [reflexivity|now rewrite IH].
Qed.

Lemma update_in_place_answers (qid : Z) (f : EditForm) (ch : list string)
      (qs : list Question) :
  In (f_answer f) ch ->
  Forall (fun q => In (answer q) (choices q)) qs ->
  Forall (fun q => In (answer q) (choices q)) (update_in_place qid f ch qs).
Proof.
  intros Hans. induction qs as [|q0 qs IH]; simpl; intro Hall; [constructor|].
  inversion Hall as [|q1 l1 H0 Hrest]; subst.
  destruct (id q0 =? qid); constructor; auto.
Qed.

Lemma update_in_place_same (qs : list Question) (q : Question) :
  find (fun q' => id q' =? id q) qs = Some q ->
  update_in_place (id q) (prefilled q) (choices q) qs = qs.
Proof.
  induction qs as [|q0 qs IH]; simpl; [discriminate|].
  destruct (id q0 =? id q) eqn:E.
  - intro H. injection H as <-. now destruct q0.
  - intro H. now rewrite (IH H).
Qed.

(** X13. An edit that is accepted replaces the first question of the bank
    that has the chosen id, keeping its id and place, by the values of the
    form (whatever the question text and the category are, empty
    included), leaves every other question as it is, saves the bank and
    does not touch the results or the session dictionary. *)
Theorem edit_accepted_effect (f : EditForm) (wd : World) :
  f_submitted f = true ->
  In (f_qid f) (map id (questions_file wd)) ->
  In (f_answer f) (parse_choices (f_choices_raw f)) ->
  exists (pre : list Question) (q : Question) (post : list Question) (wd' : World),
    questions_file wd = pre ++ q :: post /\
    id q = f_qid f /\
    Forall (fun p => id p <> f_qid f) pre /\
    edit_existing f wd =
      Ok (pre ++ mkQuestion (id q) (f_category f) (f_question f)
                            (parse_choices (f_choices_raw f)) (f_answer f) :: post,
          wd') /\
    questions_file wd' =
      pre ++ mkQuestion (id q) (f_category f) (f_question f)
                        (parse_choices (f_choices_raw f)) (f_answer f) :: post /\
    results_file wd' = results_file wd /\
    session wd' = session wd /\
    page wd' = page wd ++ [BankSaved; QuestionUpdated].
Proof.
  intros Hsub Hqid Hans.
  destruct (find_by_id _ _ Hqid) as [q [Hfind Hid]].
  destruct (update_in_place_split (f_qid f) f (parse_choices (f_choices_raw f))
                                  _ q Hfind) as (pre & post & Hqs & Hpre & Hup).
  exists pre, q, post.
  exists (say QuestionUpdated
            (save_questions
               (pre ++ mkQuestion (id q) (f_category f) (f_question f)
                                  (parse_choices (f_choices_raw f)) (f_answer f) :: post)
               wd)).
  split; [exact Hqs|]. split; [exact Hid|]. split; [exact Hpre|].
  assert (Hne : is_empty (questions_file wd) = false).
  { apply is_empty_false. intro E. rewrite E in Hqid. destruct Hqid. }
  split.
  { unfold edit_existing. rewrite Hne, Hfind, Hsub.
    apply str_in_iff in Hans. rewrite Hans. cbn [negb].
    rewrite Hid, Hup, <- Hid. reflexivity. }
  split; [reflexivity|]. split; [reflexivity|]. split; [reflexivity|].
  cbn. now rewrite <- app_assoc.
Qed.

Lemma edit_accepted_effect_witness :
  exists (pre : list Question) (q : Question) (post : list Question) (wd' : World),
    questions_file fresh_world = pre ++ q :: post /\
    id q = 2 /\
    Forall (fun p => id p <> 2) pre /\
    edit_existing (mkEditForm 2 "Math" "" "56" "56" true) fresh_world =
      Ok (pre ++ mkQuestion (id q) "Math" "" ["56"]%string "56" :: post, wd') /\
    questions_file wd' = pre ++ mkQuestion (id q) "Math" "" ["56"]%string "56" :: post /\
    results_file wd' = results_file fresh_world /\
    session wd' = session fresh_world /\
    page wd' = page fresh_world ++ [BankSaved; QuestionUpdated].
Proof.
  apply (edit_accepted_effect (mkEditForm 2 "Math" "" "56" "56" true) fresh_world).
  - reflexivity.
  - simpl. right. left. reflexivity.
  - simpl. left. reflexivity.
Defined.

(** X14. Save Changes on the form as it is first drawn for a question,
    nothing retyped, leaves the bank as it is, provided the question's
    choices are clean and hold its answer, as those of every question the
    editor wrote. *)
Theorem untouched_form_keeps_bank (q : Question) (wd : World) :
  find (fun q' => id q' =? id q) (questions_file wd) = Some q ->
  Forall clean (choices q) ->
  In (answer q) (choices q) ->
  exists wd',
    edit_existing (prefilled q) wd = Ok (questions_file wd, wd') /\
    questions_file wd' = questions_file wd /\
    page wd' = page wd ++ [BankSaved; QuestionUpdated].
Proof.
  intros Hfind Hclean Hans.
  exists (say QuestionUpdated (save_questions (questions_file wd) wd)).
  assert (Hne : is_empty (questions_file wd) = false).
  { apply is_empty_false. intro E. rewrite E in Hfind. discriminate. }
  split.
  { unfold edit_existing. rewrite Hne.
    change (f_qid (prefilled q)) with (id q). rewrite Hfind.
    change (f_submitted (prefilled q)) with true. cbv iota.
    change (f_choices_raw (prefilled q)) with (String.concat nl (choices q)).
    change (f_answer (prefilled q)) with (answer q).
    rewrite (parse_choices_join _ Hclean).
    apply str_in_iff in Hans. rewrite Hans. cbn [negb].
    rewrite (update_in_place_same _ q Hfind). reflexivity. }
  split; [reflexivity|]. cbn. now rewrite <- app_assoc.
Qed.

Lemma untouched_form_keeps_bank_witness :
  exists wd',
    edit_existing
      (prefilled (mkQuestion 2 "Math" "What is 7 * 8?" ["54"; "56"; "58"; "49"]%string "56"))
      fresh_world = Ok (questions_file fresh_world, wd') /\
    questions_file wd' = questions_file fresh_world /\
    page wd' = page fresh_world ++ [BankSaved; QuestionUpdated].
Proof.
  apply (untouched_form_keeps_bank
           (mkQuestion 2 "Math" "What is 7 * 8?" ["54"; "56"; "58"; "49"]%string "56")
           fresh_world).
  - reflexivity.
  - repeat constructor; discriminate.
  - simpl. right. left. reflexivity.
Defined.

Lemma clean_not_blank (s : string) : clean s -> str_empty (strip s) = false.
Proof.
  intros (Hne & Hs & _). rewrite Hs. destruct s; [contradiction|reflexivity].
Qed.

(** X15. Mode "Add Question", once submitted, adds a question exactly when
    the question text is not empty and the answer is one of the choices
    read from the text area (the other two tests of line 285 then hold by
    themselves).  The new question goes to the end of the bank with the id
    of [generate_id], which no question of the bank has; otherwise the
    world is left as it is. *)
Theorem add_question_effect (f : AddForm) (wd : World) :
  a_submitted f = true ->
  let choices := parse_choices (a_choices_raw f) in
  let new_q := mkQuestion (generate_id (questions_file wd)) (a_category f)
                          (a_question f) choices (a_answer f) in
  (a_question f <> EmptyString /\ In (a_answer f) choices ->
   add_question f wd =
     (Added (generate_id (questions_file wd)),
      save_questions (questions_file wd ++ [new_q]) wd) /\
   ~ In (id new_q) (map id (questions_file wd))) /\
  (a_question f = EmptyString \/ ~ In (a_answer f) choices ->
   snd (add_question f wd) = wd /\
   (fst (add_question f wd) = AddMissing \/ fst (add_question f wd) = AddMismatch)).
Proof.
  intros Hsub choices new_q. unfold add_question. rewrite Hsub. fold choices.
  split.
  - intros [Hq Hans].
    assert (E1 : str_empty (a_question f) = false)
      by (destruct (a_question f); [contradiction|reflexivity]).
    assert (E2 : is_empty choices = false)
      by (destruct choices; [destruct Hans|reflexivity]).
    assert (E3 : str_empty (strip (a_answer f)) = false).
    { apply clean_not_blank.
      pose proof (parse_choices_all_clean (a_choices_raw f)) as Hall.
      rewrite Forall_forall in Hall. apply Hall, Hans. }
    apply str_in_iff in Hans. rewrite E1, E2, E3, Hans. cbn [orb negb].
    split; [reflexivity|]. apply generate_id_unused.
  - intros Hbad.
    destruct (str_empty (a_question f) || is_empty choices ||
              str_empty (strip (a_answer f))) eqn:E.
    + split; [reflexivity|now left].
    + destruct (str_in (a_answer f) choices) eqn:Ein; cbn [negb].
      * exfalso. apply orb_false_iff in E. destruct E as [E _].
        apply orb_false_iff in E. destruct E as [E _].
        destruct Hbad as [Hq|Hans].
        -- rewrite Hq in E. discriminate.
        -- apply Hans. now apply str_in_iff.
      * split; [reflexivity|now right].
Qed.

Lemma add_question_effect_witness :
  add_question (mkAddForm "Math" "What is 2 + 2?" ("3" ++ nl ++ "4") "4" true) fresh_world =
    (Added 4,
     save_questions
       (default_questions ++
        [mkQuestion 4 "Math" "What is 2 + 2?" ["3"; "4"]%string "4"]) fresh_world) /\
  ~ In 4 (map id default_questions).
Proof.
  apply (proj1 (add_question_effect
                  (mkAddForm "Math" "What is 2 + 2?" ("3" ++ nl ++ "4") "4" true)
                  fresh_world eq_refl)).
  split; [discriminate|]. simpl. right. left. reflexivity.
Defined.

Lemma filter_other_ids (qid : Z) (qs : list Question) :
  NoDup (map id qs) -> In qid (map id qs) ->
  S (List.length (filter (fun q => negb (id q =? qid)) qs)) = List.length qs.
Proof.
  induction qs as [|q0 qs IH]; simpl; [intros _ []|].
  intros Hnd Hin. inversion Hnd as [|x l Hx Hl]; subst.
  destruct (id q0 =? qid) eqn:E; simpl.
  - apply Z.eqb_eq in E. f_equal.
    assert (Hall : forall q, In q qs -> negb (id q =? qid) = true).
    { intros q Hq. apply negb_true_iff, Z.eqb_neq. intro Eq.
      apply Hx. rewrite E, <- Eq. now apply in_map. }
    clear IH Hin Hnd Hl Hx. induction qs as [|q1 qs IH]; [reflexivity|].
    simpl. rewrite (Hall q1 (or_introl eq_refl)). simpl. f_equal.
    apply IH. intros q Hq. apply Hall. now right.
  - apply Z.eqb_neq in E. f_equal. apply IH; [exact Hl|].
    destruct Hin as [Hin|Hin]; [contradiction|exact Hin].
Qed.

(** X16. Delete, on a bank that is not empty, saves the bank without the
    questions whose id is the chosen one: no question with that id is
    left, every other question stays, in the order of before; when the ids
    of the bank are pairwise distinct exactly one question goes. *)
Theorem delete_question_effect (qid : Z) (wd : World) :
  questions_file wd <> [] ->
  let wd' := snd (delete_question qid true wd) in
  fst (delete_question qid true wd) = Deleted qid /\
  ~ In qid (map id (questions_file wd')) /\
  subseq (questions_file wd') (questions_file wd) /\
  (forall q, In q (questions_file wd) -> id q <> qid -> In q (questions_file wd')) /\
  (NoDup (map id (questions_file wd)) -> In qid (map id (questions_file wd)) ->
   len (questions_file wd') = len (questions_file wd) - 1).
Proof.
  intros Hne wd'. subst wd'. unfold delete_question.
  apply is_empty_false in Hne. rewrite Hne. cbn [fst snd save_questions say questions_file].
  split; [reflexivity|]. split; [|split; [|split]].
  - intro H. apply in_map_iff in H. destruct H as [q [Hq Hin]].
    apply filter_In in Hin. destruct Hin as [_ Hneq].
    apply negb_true_iff, Z.eqb_neq in Hneq. contradiction.
  - apply subseq_filter.
  - intros q Hq Hneq. apply filter_In. split; [exact Hq|].
    now apply negb_true_iff, Z.eqb_neq.
  - intros Hnd Hin. pose proof (filter_other_ids qid _ Hnd Hin) as H.
    unfold len. lia.
Qed.

Lemma delete_question_effect_witness :
  questions_file (snd (delete_question 2 true fresh_world)) =
    [mkQuestion 1 "General Knowledge" "What is the capital of France?"
       ["Paris"; "London"; "Berlin"; "Madrid"]%string "Paris";
     mkQuestion 3 "Science" "Water's chemical formula is?"
       ["H2O"; "CO2"; "O2"; "NaCl"]%string "H2O"] /\
  ~ In 2 (map id (questions_file (snd (delete_question 2 true fresh_world)))).
Proof.
  split; [reflexivity|].
  apply (delete_question_effect 2 fresh_world). discriminate.
Defined.

Lemma NoDup_ids_filter (f : Question -> bool) (qs : list Question) :
  NoDup (map id qs) -> NoDup (map id (filter f qs)).
Proof.
  induction qs as [|q0 qs IH]; simpl; intro Hnd; [constructor|].
  inversion Hnd as [|x l Hx Hl]; subst.
  destruct (f q0); simpl; [|now apply IH].
  constructor; [|now apply IH].
  intro H. apply Hx. apply in_map_iff in H. destruct H as [q [Hq Hin]].
  apply filter_In in Hin. rewrite <- Hq. apply in_map, Hin.
Qed.

Lemma Forall_filter_keep {A : Type} (P : A -> Prop) (f : A -> bool) (l : list A) :
  Forall P l -> Forall P (filter f l).
Proof.
  intro H. rewrite Forall_forall in *. intros x Hx.
  apply filter_In in Hx. now apply H.
Qed.

Lemma default_questions_ok : bank_ok default_questions.
Proof.
  split.
  - repeat (constructor; [simpl; intuition discriminate|]). constructor.
  - repeat (constructor; [simpl; auto|]). constructor.
Qed.

(** X17. Every mode of the editor keeps the bank well formed: when no id
    occurs twice and every answer is among the choices of its question
    before the run, the same holds for the bank the run leaves. *)
Theorem editor_keeps_bank_ok (m : EditMode) (wd wd' : World) :
  bank_ok (questions_file wd) ->
  edit_questions m wd = Ok wd' ->
  bank_ok (questions_file wd').
Proof.
  intros [Hnd Hans]. destruct m as [f|f|qid pressed|pressed]; simpl.
  - (* Add Question *)
    intro H. injection H as <-. unfold add_question.
    destruct (a_submitted f); [|split; assumption].
    destruct (_ || _ || _); [split; assumption|].
    destruct (str_in (a_answer f) (parse_choices (a_choices_raw f))) eqn:Ein;
      cbn [negb snd]; [|split; assumption].
    apply str_in_iff in Ein.
    cbn [save_questions say questions_file]. split.
    + rewrite map_app. simpl. apply NoDup_snoc; [exact Hnd|apply generate_id_unused].
    + apply Forall_app. split; [exact Hans|]. constructor; [exact Ein|constructor].
  - (* Edit Existing *)
    unfold edit_existing.
    destruct (is_empty (questions_file wd)).
    { simpl. intro H. injection H as <-. split; assumption. }
    destruct (find _ _) as [q|]; [|discriminate].
    destruct (f_submitted f).
    + destruct (str_in (f_answer f) (parse_choices (f_choices_raw f))) eqn:Ein;
        simpl; intro H; injection H as <-; [|split; assumption].
      apply str_in_iff in Ein. simpl. split.
      * now rewrite update_in_place_ids.
      * now apply update_in_place_answers.
    + simpl. intro H. injection H as <-. split; assumption.
  - (* Delete Question *)
    intro H. injection H as <-. unfold delete_question.
    destruct (is_empty (questions_file wd)); [split; assumption|].
    destruct pressed; [|split; assumption].
    cbn [snd save_questions say questions_file]. split.
    + now apply NoDup_ids_filter.
    + now apply Forall_filter_keep.
  - (* Bulk Reset to Default *)
    intro H. injection H as <-. destruct pressed; [|split; assumption].
    exact default_questions_ok.
Qed.

Lemma editor_keeps_bank_ok_witness :
  bank_ok (questions_file (snd (delete_question 2 true fresh_world))).
Proof.
  apply (editor_keeps_bank_ok (ModeDelete 2 true) fresh_world
                              (snd (delete_question 2 true fresh_world))).
  - exact default_questions_ok.
  - reflexivity.
Defined.

(** X18. [ensure_files_exist] creates what is missing and nothing else: a
    file that exists keeps its content, a missing bank becomes the default
    bank and missing results become the empty list; running it again
    changes nothing.  Bulk Reset therefore always ends with the default
    bank and the results, the session dictionary and the page of before. *)
Theorem ensure_files_exist_creates_missing (d : Disk) (wd : World) :
  questions_json (ensure_files_exist d) =
    Some (get (questions_json d) default_questions) /\
  results_json (ensure_files_exist d) = Some (get (results_json d) []) /\
  ensure_files_exist (ensure_files_exist d) = ensure_files_exist d /\
  bulk_reset true wd =
    {| session := session wd;
       questions_file := default_questions;
       results_file := results_file wd;
       page := page wd |}.
Proof.
  destruct d as [[qs|] [rs|]]; repeat split.
Qed.

Lemma filter_below_generate_id (qs : list Question) :
  filter (fun q => negb (id q =? generate_id qs)) qs = qs.
Proof.
  assert (H : forall l, (forall q, In q l -> In q qs) ->
                        filter (fun q => negb (id q =? generate_id qs)) l = l).
  { induction l as [|q0 l IH]; intro Hsub; [reflexivity|]. simpl.
    assert (E : (id q0 =? generate_id qs) = false).
    { apply Z.eqb_neq. pose proof (generate_id_above qs q0 (Hsub q0 (or_introl eq_refl))).
      lia. }
    rewrite E. simpl. f_equal. apply IH. intros q Hq. apply Hsub. now right. }
  apply H. auto.
Qed.

(** X19. Ids are handed out again: deleting the question that Add
    Question has just added gives back the bank of before, and the next
    Add Question uses the same id once more. *)
Theorem add_then_delete_restores (f : AddForm) (wd : World) (new_id : Z) :
  fst (add_question f wd) = Added new_id ->
  let wd' := snd (delete_question new_id true (snd (add_question f wd))) in
  questions_file wd' = questions_file wd /\
  generate_id (questions_file wd') = new_id.
Proof.
  unfold add_question.
  destruct (a_submitted f); [|discriminate].
  destruct (_ || _ || _); [discriminate|].
  destruct (negb _); [discriminate|].
  cbn [fst snd]. intro H. injection H as <-.
  unfold delete_question. cbn [save_questions say questions_file].
  assert (Hne : is_empty (questions_file wd ++
                  [mkQuestion (generate_id (questions_file wd)) (a_category f)
                              (a_question f) (parse_choices (a_choices_raw f))
                              (a_answer f)]) = false).
  { destruct (questions_file wd); reflexivity. }
  rewrite Hne. cbn [snd save_questions say questions_file].
  rewrite filter_app, filter_below_generate_id. simpl.
  rewrite Z.eqb_refl. simpl. rewrite app_nil_r. split; reflexivity.
Qed.

Lemma add_then_delete_restores_witness :
  questions_file
    (snd (delete_question 4 true
            (snd (add_question
                    (mkAddForm "Math" "What is 2 + 2?" ("3" ++ nl ++ "4") "4" true)
                    fresh_world)))) = questions_file fresh_world /\
  generate_id
    (questions_file
       (snd (delete_question 4 true
               (snd (add_question
                       (mkAddForm "Math" "What is 2 + 2?" ("3" ++ nl ++ "4") "4" true)
                       fresh_world))))) = 4.
Proof.
  apply (add_then_delete_restores
           (mkAddForm "Math" "What is 2 + 2?" ("3" ++ nl ++ "4") "4" true)
           fresh_world 4).
  reflexivity.
Defined.

(* ------------------------------------------------------------------ *)
(** ** Finish Quiz, again *)

(** X20. Finish Quiz is served on the last question only: on a session in
    progress at an earlier index a run with Finish Quiz pressed changes
    nothing.  At the last index, when [calculate_grade] returns for the
    score so far and the size of the selection, the run appends the record
    of that score, whatever was answered, and does so again on every
    further press: two presses leave the same record twice (the clock
    reading apart); when [calculate_grade] raises, the run raises the same
    exception. *)
Theorem finish_only_on_last_question (env : Env) (w : QuizWidgets)
        (selected : list Question) (wd : World) (i : Z) :
  in_progress (session wd) (map id selected) = true ->
  current_q_index (session wd) = Some i ->
  0 <= i < len selected ->
  pressed BFinish w ->
  (i <> len selected - 1 -> run_session env w selected wd = Ok wd) /\
  (i = len selected - 1 ->
   forall graded : Number * string,
   calculate_grade (get (score (session wd)) 0) (len selected) = Ok graded ->
   exists (r : ResultRecord) (wd1 wd2 : World),
     run_session env w selected wd = Ok wd1 /\
     results_file wd1 = results_file wd ++ [r] /\
     r_score r = get (score (session wd)) 0 /\
     r_total r = len selected /\
     r_pct r = fst graded /\
     r_grade r = snd graded /\
     run_session env w selected wd1 = Ok wd2 /\
     results_file wd2 = results_file wd ++ [r; r]) /\
  (i = len selected - 1 ->
   forall e : Exn,
   calculate_grade (get (score (session wd)) 0) (len selected) = Raise e ->
   run_session env w selected wd = Raise e).
Proof.
  intros Hprog Hidx Hi (Hp & Hs & Hn & Hf).
  destruct (py_index_in_range selected i Hi) as [q [Hq _]].
  pose proof (run_session_in_progress env w selected wd i q Hprog Hidx Hq) as Hrun.
  rewrite Hp, Hs, Hn, Hf in Hrun. cbn [is_button bind] in Hrun.
  split; [|split].
  - intro Hne. apply Z.eqb_neq in Hne. now rewrite Hne in Hrun.
  - intros He [pct grade] Eg. pose proof He as Hb. apply Z.eqb_eq in Hb.
    rewrite Hb in Hrun. unfold finish in Hrun. rewrite Eg in Hrun.
    cbn [bind fst snd] in Hrun.
    match type of Hrun with _ = Ok ?x => set (wd1 := x) in * end.
    assert (Hprog1 : in_progress (session wd1) (map id selected) = true).
    { destruct (in_progress_last_pool _ _ Hprog) as [_ Hflag].
      subst wd1. cbn [session with_session save_result say].
      rewrite (in_progress_ignores_flag (session wd) (map id selected) false Hflag).
      exact Hprog. }
    assert (Hidx1 : current_q_index (session wd1) = Some i) by exact Hidx.
    pose proof (run_session_in_progress env w selected wd1 i q Hprog1 Hidx1 Hq) as Hrun1.
    rewrite Hp, Hs, Hn, Hf in Hrun1. cbn [is_button bind] in Hrun1. rewrite Hb in Hrun1.
    unfold finish in Hrun1.
    assert (Esc : get (score (session wd1)) 0 = get (score (session wd)) 0)
      by reflexivity.
    rewrite Esc, Eg in Hrun1. cbn [bind fst snd] in Hrun1.
    eexists. eexists. eexists.
    split; [exact Hrun|]. split; [reflexivity|]. split; [reflexivity|].
    split; [reflexivity|]. split; [reflexivity|]. split; [reflexivity|].
    split; [exact Hrun1|].
    subst wd1. cbn [results_file with_session save_result say].
    now rewrite <- app_assoc.
  - intros He e Ee. apply Z.eqb_eq in He. rewrite He in Hrun.
    rewrite Hrun. unfold finish. rewrite Ee. reflexivity.
Qed.

Lemma finish_only_on_last_question_witness :
  run_session plain_env (press_finish (at_rest "Paris")) default_questions answered_world =
    Ok answered_world /\
  exists (r : ResultRecord) (wd1 wd2 : World),
    run_session plain_env math_finish
      (filter_pool "Math" default_questions) math_finished_world = Ok wd1 /\
    results_file wd1 = results_file math_finished_world ++ [r] /\
    r_score r = 0 /\
    r_total r = 1 /\
    r_pct r = PyFloat (double_of_int 0) /\
    r_grade r = "D"%string /\
    run_session plain_env math_finish
      (filter_pool "Math" default_questions) wd1 = Ok wd2 /\
    results_file wd2 = results_file math_finished_world ++ [r; r].
Proof.
  split.
  - apply (proj1 (finish_only_on_last_question
                    plain_env (press_finish (at_rest "Paris")) default_questions
                    answered_world 0 eq_refl eq_refl
                    (conj (Z.le_refl 0) eq_refl)
                    (conj eq_refl (conj eq_refl (conj eq_refl eq_refl))))).
    discriminate.
  - destruct (finish_only_on_last_question
                plain_env math_finish (filter_pool "Math" default_questions)
                math_finished_world 0 eq_refl eq_refl
                (conj (Z.le_refl 0) eq_refl)
                (conj eq_refl (conj eq_refl (conj eq_refl eq_refl))))
      as (_ & H & _).
    apply (H eq_refl (PyFloat (double_of_int 0), "D"%string)).
    vm_compute. reflexivity.
Defined.

(* ------------------------------------------------------------------ *)
(** ** The selected questions *)

Lemma firstn_incl {A : Type} (n : nat) (l : list A) (x : A) :
  In x (firstn n l) -> In x l.
Proof.
  intro H. rewrite <- (firstn_skipn n l). apply in_or_app. now left.
Qed.

Lemma NoDup_firstn {A : Type} (n : nat) (l : list A) : NoDup l -> NoDup (firstn n l).
Proof.
  revert n. induction l as [|x l IH]; intros [|n] Hnd; simpl; try constructor.
  - inversion Hnd as [|y l' Hx Hl]; subst.
    intro H. apply Hx. eapply firstn_incl. exact H.
  - inversion Hnd; subst. now apply IH.
Qed.

Lemma filter_pool_in (cat : string) (qs : list Question) (q : Question) :
  In q (filter_pool cat qs) ->
  In q qs /\ (cat = "All"%string \/ category q = cat).
Proof.
  unfold filter_pool. destruct (String.eqb cat "All") eqn:E.
  - apply String.eqb_eq in E. auto.
  - intro H. apply filter_In in H. destruct H as [H1 H2].
    apply String.eqb_eq in H2. auto.
Qed.

(** X21. Whatever the shuffle draws, the questions of a quiz are questions
    of the bank in the chosen category (any when "All" is chosen), and a
    bank without a repeated id gives a quiz without a repeated id: no
    question is asked twice. *)
Theorem selection_within_pool (env : Env) (w : QuizWidgets) (qs : list Question) :
  0 <= w_num_questions w ->
  (forall l, Permutation l (shuffled env l)) ->
  let selected := select_questions env w (filter_pool (w_category w) qs) in
  (forall q, In q selected ->
     In q qs /\ (w_category w = "All"%string \/ category q = w_category w)) /\
  (NoDup (map id qs) -> NoDup (map id selected)).
Proof.
  intros Hn Hperm selected. subst selected. unfold select_questions.
  set (pool := filter_pool (w_category w) qs).
  set (ordered := if w_shuffle w then shuffled env pool else pool).
  assert (Hord : Permutation pool ordered).
  { subst ordered. destruct (w_shuffle w); [apply Hperm|apply Permutation_refl]. }
  rewrite py_slice_to_firstn by exact Hn.
  split.
  - intros q Hq. apply firstn_incl in Hq.
    apply (Permutation_in _ (Permutation_sym Hord)) in Hq.
    now apply filter_pool_in.
  - intro Hnd. rewrite <- firstn_map. apply NoDup_firstn.
    apply (Permutation_NoDup (Permutation_map id Hord)).
    subst pool. unfold filter_pool.
    destruct (String.eqb (w_category w) "All"); [exact Hnd|].
    now apply NoDup_ids_filter.
Qed.

Lemma selection_within_pool_witness :
  NoDup (map id (select_questions plain_env math_widgets
                   (filter_pool (w_category math_widgets) default_questions))).
Proof.
  apply (selection_within_pool plain_env math_widgets default_questions).
  - simpl. lia.
  - intro l. apply Permutation_refl.
  - exact (proj1 default_questions_ok).
Defined.

(* ------------------------------------------------------------------ *)
(** ** Double precision *)

Lemma double_same_eq (x y : double) : double_same x y = true -> x = y.
Proof.
  destruct x as [a|a| |a m e], y as [b|b| |b m' e']; simpl; try discriminate.
  - intro H. apply Bool.eqb_prop in H. now subst.
  - intro H. apply andb_true_iff in H. destruct H as [H He].
    apply andb_true_iff in H. destruct H as [Ha Hm].
    apply Bool.eqb_prop in Ha. apply Pos.eqb_eq in Hm. apply Z.eqb_eq in He.
    now subst.
Qed.

Lemma same_as_hardware_upto_100 : forallb same_as_hardware (score_pairs 100) = true.
Proof. vm_compute. reflexivity. Qed.

(** For totals up to 100 the arithmetic of [calculate_grade], written out
    on mantissas and exponents, gives bit for bit what the machine's
    floating point unit gives. *)
Lemma calculate_grade_as_hardware (score total : Z) :
  0 <= score <= total -> 0 < total <= 100 ->
  calculate_grade score total =
    Ok (PyFloat (Prim2SF (fst (calculate_grade_binary64 score total))),
        snd (calculate_grade_binary64 score total)).
Proof.
  intros Hs Ht.
  pose proof (score_pairs_complete 100 score total Hs (proj2 Ht)) as Hin.
  pose proof same_as_hardware_upto_100 as Hall.
  rewrite forallb_forall in Hall. specialize (Hall _ Hin).
  unfold same_as_hardware in Hall. cbn [fst snd] in Hall.
  destruct (calculate_grade score total) as [[[z|d] grade]|e]; [| |discriminate].
  - apply Z.leb_le in Hall. lia.
  - apply andb_true_iff in Hall. destruct Hall as [Hp Hg].
    apply double_same_eq in Hp. apply String.eqb_eq in Hg. now subst.
Qed.

Lemma calculate_grade_as_hardware_witness :
  calculate_grade 1 3 =
    Ok (PyFloat (Prim2SF (fst (calculate_grade_binary64 1 3))),
        snd (calculate_grade_binary64 1 3)).
Proof. apply (calculate_grade_as_hardware 1 3); lia. Defined.

Lemma binary64_grade_agrees_witness :
  snd (calculate_grade_binary64 17 20) = snd (exact_grade 17 20) /\
  exists x : Q,
    float_to_Q (fst (calculate_grade_binary64 17 20)) = Some x /\
    (Qabs (x - fst (exact_grade 17 20)) <= 1 # 2 ^ 46)%Q.
Proof.
  apply (binary64_grade_agrees 17 20); lia.
Defined.
